(** * update-issue-status: the status-update workflow of [src/update-issue-status.ts]

    A shallow embedding of the single function [updateIssueStatus], of its
    helper [mustGetOwnerTypeQuery] and of the regular expression [urlParse],
    followed by the properties the specification states about them.

    Modelling conventions.
    - A JavaScript string is a [string]: a sequence of code units.  The
      pattern only distinguishes the slash, the ASCII digits and the literal
      characters it spells out, so every other code unit behaves alike.
    - [undefined] (and [null], which [?.] and [??] treat the same way) is
      [None].
    - [core.getInput] and [github.getOctokit] belong to the platform: the
      program is given the four values [getInput] returned and the client
      [getOctokit] built.
    - The asynchronous function is run to completion: its result is the trace
      of observable actions it performed, in order, and how its promise
      settled.  The three [octokit.graphql] calls are answered by the client,
      so a scripted client can stand for the remote API.  [main.ts] turns a
      resolved promise into exit code 0 and a rejected one into
      [core.setFailed] and exit code 1.
    - [core.debug] lines only print values that are already computed; they
      raise nothing and are left out of the trace. *)

From stdpp Require Import base option list strings gmap pretty.
From Stdlib Require Import Ascii ZArith Lia.

Local Open Scope Z_scope.

(** ** Regular expressions: the fragment [urlParse] is written in *)

Module RegExp.

(** The two character classes of the pattern: [\d] and a negated class
    [[^...]]. *)
Inductive ClassAtom :=
| ClassEscape_d
| NegatedClass (cs : list ascii).

(** [\d] without the [u] or [i] flag is exactly [0-9]. *)
Definition is_digit (c : ascii) : bool :=
  bool_decide (48 ≤ Z.of_N (N_of_ascii c) ≤ 57).

Definition class_matches (a : ClassAtom) (c : ascii) : bool :=
  match a with
  | ClassEscape_d => is_digit c
  | NegatedClass cs => bool_decide (c ∉ cs)
  end.

Inductive Regex :=
| Caret                                   (* ^ *)
| Literal (s : string)                    (* pattern characters; \/ and \. are the characters / and . *)
| OneOrMore (a : ClassAtom)               (* a+ , greedy *)
| Optional (r : Regex)                    (* (?:r)? , greedy *)
| Disjunction (r1 r2 : Regex)             (* r1|r2 *)
| NamedGroup (name : string) (r : Regex)  (* (?<name>r) *)
| Concat (r1 r2 : Regex).

(** The state of a match in progress: the index reached in the input, the
    input from that index on, and the groups captured so far. *)
Record MatchState := mkState {
  endIndex : nat;
  rest : string;
  captures : gmap string string
}.

Definition Continuation := MatchState → option MatchState.

Fixpoint strip_prefix (p s : string) : option string :=
  match p, s with
  | EmptyString, _ => Some s
  | String a p', String b s' => if decide (a = b) then strip_prefix p' s' else None
  | String _ _, EmptyString => None
  end.

Fixpoint take (n : nat) (s : string) : string :=
  match n, s with
  | S n', String c s' => String c (take n' s')
  | _, _ => EmptyString
  end.

(** Greedy repetition of a class: consume as many characters as the class
    allows, and give characters back one at a time while the continuation
    fails. *)
Fixpoint repeat_class (a : ClassAtom) (s : string) (i : nat)
    (k : nat → string → option MatchState) : option MatchState :=
  match s with
  | String c s' =>
      if class_matches a c then
        match repeat_class a s' (S i) k with
        | Some y => Some y
        | None => k i s
        end
      else k i s
  | EmptyString => k i s
  end.

(** The backtracking matcher of ECMAScript, in continuation-passing style:
    [matcher r x k] matches [r] at state [x] and then runs [k]; the first
    alternative that lets [k] succeed wins. *)
Fixpoint matcher (r : Regex) (x : MatchState) (k : Continuation) : option MatchState :=
  match r with
  | Caret => if decide (endIndex x = 0%nat) then k x else None
  | Literal l =>
      match strip_prefix l (rest x) with
      | Some s' => k (mkState (endIndex x + String.length l) s' (captures x))
      | None => None
      end
  | OneOrMore a =>
      match rest x with
      | String c s' =>
          if class_matches a c then
            repeat_class a s' (S (endIndex x)) (λ i s, k (mkState i s (captures x)))
          else None
      | EmptyString => None
      end
  | Optional r' =>
      match matcher r' x (λ y, if decide (endIndex y = endIndex x) then None else k y) with
      | Some z => Some z
      | None => k x
      end
  | Disjunction r1 r2 =>
      match matcher r1 x k with
      | Some z => Some z
      | None => matcher r2 x k
      end
  | NamedGroup name r' =>
      matcher r' x (λ y,
        k (mkState (endIndex y) (rest y)
             (<[name := take (endIndex y - endIndex x) (rest x)]> (captures y))))
  | Concat r1 r2 => matcher r1 x (λ y, matcher r2 y k)
  end.

(** [RegExpBuiltinExec] for a pattern without the [g] and [y] flags: try the
    matcher at index 0, then 1, and so on up to the length of the input. *)
Fixpoint exec_from (r : Regex) (lastIndex : nat) (s : string) : option MatchState :=
  match matcher r (mkState lastIndex s ∅) Some with
  | Some y => Some y
  | None =>
      match s with
      | String _ s' => exec_from r (S lastIndex) s'
      | EmptyString => None
      end
  end.

(** [s.match(r)] for such a pattern: [null], or the match, of which the
    program reads only [groups]. *)
Definition String_match (s : string) (r : Regex) : option (gmap string string) :=
  captures <$> exec_from r 0 s.

End RegExp.

Import RegExp.

(** [/^(?:https:\/\/)?github\.com\/(?<ownerType>orgs|users)\/(?<ownerName>[^/]+)\/projects\/(?<projectNumber>\d+)/] *)
Definition urlParse : Regex :=
  Concat Caret
 (Concat (Optional (Literal "https://"))
 (Concat (Literal "github.com/")
 (Concat (NamedGroup "ownerType" (Disjunction (Literal "orgs") (Literal "users")))
 (Concat (Literal "/")
 (Concat (NamedGroup "ownerName" (OneOrMore (NegatedClass ["/"%char])))
 (Concat (Literal "/projects/")
         (NamedGroup "projectNumber" (OneOrMore ClassEscape_d)))))))).

(** ** Numbers and [parseInt] *)

(** The Number values this program can produce.  Every integer up to 2^53 in
    absolute value is a Number, written [Exact z].  Beyond that bound the
    result of [parseInt] is the engine's approximation of the mathematical
    integer (rounded to a double, and for more than 20 digits possibly
    truncated first), which is not determined here: [Rounded z] only records
    the integer [z] being approximated. *)
Inductive JsNumber :=
| NaN
| Exact (z : Z)
| Rounded (mathInt : Z).

Definition number_of_mathInt (z : Z) : JsNumber :=
  if decide (Z.abs z ≤ 2 ^ 53) then Exact z else Rounded z.

(** White space among the code units below 256: TAB, LF, VT, FF, CR, SP and
    NBSP. *)
Definition is_white_space (c : ascii) : bool :=
  bool_decide (N_of_ascii c ∈ [9; 10; 11; 12; 13; 32; 160]%N).

Fixpoint trim_start (s : string) : string :=
  match s with
  | String c s' => if is_white_space c then trim_start s' else s
  | EmptyString => s
  end.

(** The longest prefix made of decimal digits. *)
Fixpoint digit_run (s : string) : string :=
  match s with
  | String c s' => if is_digit c then String c (digit_run s') else EmptyString
  | EmptyString => EmptyString
  end.

Definition digit_value (c : ascii) : Z := Z.of_N (N_of_ascii c) - 48.

Fixpoint decimal_from (acc : Z) (s : string) : Z :=
  match s with
  | String c s' => decimal_from (10 * acc + digit_value c) s'
  | EmptyString => acc
  end.

(** The integer a string of decimal digits denotes. *)
Definition decimal (s : string) : Z := decimal_from 0 s.

(** [parseInt(input, 10)]: skip leading white space, read an optional sign,
    then the longest run of decimal digits; [NaN] when that run is empty.
    (The result [-0] of a negative zero is not told apart from [0].) *)
Definition parseInt (input : string) : JsNumber :=
  let s := trim_start input in
  let '(sign, s) :=
    match s with
    | String "-" s' => (-1, s')
    | String "+" s' => (1, s')
    | _ => (1, s)
    end in
  let z := digit_run s in
  match z with
  | EmptyString => NaN
  | _ => number_of_mathInt (sign * decimal z)
  end.

(** ** Errors *)

(** Where the runtime raises a [TypeError] in this program. *)
Inductive TypeErrorSite :=
| ObjectKeysOfUndefined                (* Object.keys(undefined) *)
| ReadOfUndefined (property : string). (* undefined.property *)

(** What a promise of this program can be rejected with: an [Error] object
    built with [new Error(message)], by the program or by the client, or a
    [TypeError] raised by the runtime. *)
Inductive JsError :=
| Error (message : string)
| TypeError (site : TypeErrorSite).

(** ** The trigger context, lines 60-62

    [github.context.payload]: the fields the program reads. *)

Record Account := { login : string }.

Record Item := {
  number : Z;
  node_id : option string;
  assignees : option (list Account)
}.

Record Repository := { owner : Account }.

Record WebhookPayload := {
  issue : option Item;
  pull_request : option Item;
  repository : option Repository
}.

(** ** Configuration, lines 53-56

    The four values [core.getInput] returned. *)
Record Inputs := {
  project_url : string;
  github_token : string;
  new_status : string;
  open_status : string
}.

(** ** The remote API, lines 9-50 *)

(** The result of [mustGetOwnerTypeQuery]: ['organization' | 'user']. *)
Inductive OwnerTypeQuery := organization | user.

Record ProjectV2 := { id : string }.

Module ProjectNodeIDResponse.
Record t := { organization : option ProjectV2; user : option ProjectV2 }.
End ProjectNodeIDResponse.

(** [idResp[ownerTypeQuery]] *)
Definition ProjectNodeIDResponse_get (r : ProjectNodeIDResponse.t)
    (q : OwnerTypeQuery) : option ProjectV2 :=
  match q with
  | organization => ProjectNodeIDResponse.organization r
  | user => ProjectNodeIDResponse.user r
  end.

(** [fieldValueByName: { field: { databaseId }, name }] *)
Record FieldValue := { field_databaseId : string; name : string }.

(** A node, with the fields as the interface of lines 23-36 declares them. *)
Record ProjectItemNode := { fieldValueByName : FieldValue }.

(** [projectItems: { nodes }].  The declared type is a 1-tuple; the array a
    response carries can have any length, the empty one included. *)
Record IssueStatusResponse := { projectItems_nodes : list ProjectItemNode }.

(** [updateProjectV2ItemFieldValue: { projectV2Item: { id, fieldValueByName } }] *)
Record UpdateIssueStatusResponse := {
  projectV2Item_id : string;
  projectV2Item_fieldValueByName : FieldValue
}.

(** The variables of the first query, lines 100-103. *)
Record GetProjectVariables := {
  var_projectOwnerName : option string;
  var_projectNumber : JsNumber
}.

(** The [input] object of the mutation, lines 167-172. *)
Record UpdateInput := {
  input_fieldId : option string;
  input_contentId : option string;
  input_projectId : option string;
  input_issueStatus : option string
}.

(** The three documents sent through [octokit.graphql], with what is spliced
    into them or passed along as variables. *)
Inductive Request :=
| GetProject (ownerTypeQuery : OwnerTypeQuery) (variables : GetProjectVariables)
| IssueStatus
| UpdateIssueStatus (input : UpdateInput).

(** The client [github.getOctokit(ghToken)]: each call resolves to the data
    of the response or rejects. *)
Record Octokit := {
  graphql_getProject : OwnerTypeQuery → GetProjectVariables → JsError + ProjectNodeIDResponse.t;
  graphql_issueStatus : JsError + option IssueStatusResponse;
  graphql_updateIssueStatus : UpdateInput → JsError + UpdateIssueStatusResponse
}.

Definition respond (octokit : Octokit) (req : Request) :
    JsError + match req with
              | GetProject _ _ => ProjectNodeIDResponse.t
              | IssueStatus => option IssueStatusResponse
              | UpdateIssueStatus _ => UpdateIssueStatusResponse
              end :=
  match req with
  | GetProject q v => graphql_getProject octokit q v
  | IssueStatus => graphql_issueStatus octokit
  | UpdateIssueStatus i => graphql_updateIssueStatus octokit i
  end.

(** ** Observable actions *)

Inductive Event :=
| Info (message : string)          (* core.info *)
| Graphql (req : Request)          (* octokit.graphql: a network call *)
| SetOutput (name value : string). (* core.setOutput *)

Definition is_network_call (e : Event) : bool :=
  match e with Graphql _ => true | _ => false end.

Definition is_mutation (e : Event) : bool :=
  match e with Graphql (UpdateIssueStatus _) => true | _ => false end.

Definition is_output (e : Event) : bool :=
  match e with SetOutput _ _ => true | _ => false end.

(** A computation that appends to the trace and either returns or throws. *)
Definition Action (A : Type) : Type := list Event → list Event * (JsError + A).

#[global] Instance Action_ret : MRet Action := λ A a tr, (tr, inr a).

#[global] Instance Action_bind : MBind Action := λ A B f m tr,
  match m tr with
  | (tr', inr a) => f a tr'
  | (tr', inl e) => (tr', inl e)
  end.

Definition emit (e : Event) : Action unit := λ tr, (tr ++ [e], inr ()).

Definition lift {A} (r : JsError + A) : Action A := λ tr, (tr, r).

(** [await octokit.graphql(...)] *)
Definition graphql (octokit : Octokit) (req : Request) := 
  emit (Graphql req) ;; lift (respond octokit req).

(** ** The program *)

(** A value inside a template literal. *)
Definition template_string (v : option string) : string := default "undefined" v.

Definition template_number (v : option Z) : string :=
  match v with Some n => pretty n | None => "undefined" end.

(** [Object.keys(o)] for an array or [undefined]: the indices as strings. *)
Definition Object_keys {A} (o : option (list A)) : JsError + list string :=
  match o with
  | None => inl (TypeError ObjectKeysOfUndefined)
  | Some l => inr (pretty <$> seq 0 (length l))
  end.

(** Lines 181-189. *)
Definition mustGetOwnerTypeQuery (ownerType : option string) : JsError + OwnerTypeQuery :=
  let ownerTypeQuery :=
    if decide (ownerType = Some "orgs") then Some organization
    else if decide (ownerType = Some "users") then Some user
    else None in
  match ownerTypeQuery with
  | None =>
      inl (Error ("Unsupported ownerType: " +:+ template_string ownerType
                  +:+ ". Must be one of 'orgs' or 'users'"))
  | Some q => inr q
  end.

(** [issueResp?.projectItems.nodes[0].fieldValueByName.f], lines 127 and 128:
    [undefined] when the response is nullish, a [TypeError] when the array
    has no first element. *)
Definition first_node_field {A} (issueResp : option IssueStatusResponse)
    (f : FieldValue → A) : JsError + option A :=
  match issueResp with
  | None => inr None
  | Some r =>
      match projectItems_nodes r !! 0%nat with
      | None => inl (TypeError (ReadOfUndefined "fieldValueByName"))
      | Some node => inr (Some (f (fieldValueByName node)))
      end
  end.

Definition invalid_project_url (projectUrl : string) : JsError :=
  Error ("Invalid project URL: " +:+ projectUrl
         +:+ ". Project URL should match the format https://github.com/<orgs-or-users>/<ownerName>/projects/<projectNumber>").

(** What lines 82-85 compute from a match. *)
Record ProjectReference := {
  ownerTypeQuery : OwnerTypeQuery;
  projectOwnerName : option string;
  projectNumber : JsNumber
}.

(** Lines 74-85, the block of [updateIssueStatus] that parses the URL. *)
Definition parse_projectUrl (projectUrl : string) : JsError + ProjectReference :=
  match String_match projectUrl urlParse with
  | None => inl (invalid_project_url projectUrl)
  | Some groups =>
      let projectOwnerName := groups !! "ownerName" in
      let projectNumber := parseInt (default "" (groups !! "projectNumber")) in
      let ownerType := groups !! "ownerType" in
      match mustGetOwnerTypeQuery ownerType with
      | inl e => inl e
      | inr ownerTypeQuery =>
          inr {| ownerTypeQuery := ownerTypeQuery;
                 projectOwnerName := projectOwnerName;
                 projectNumber := projectNumber |}
      end
  end.

(** Lines 52-179. *)
Definition updateIssueStatus (inputs : Inputs) (payload : WebhookPayload)
    (octokit : Octokit) : Action unit :=
  let projectUrl := project_url inputs in
  let newStatus := new_status inputs in
  let openStatus := open_status inputs in
  let issue' : option Item :=
    match issue payload with Some i => Some i | None => pull_request payload end in
  let issueAssignees : option (list Account) := issue payload ≫= assignees in
  (* Ensure the issue is not already assigned *)
  keys ← lift (Object_keys issueAssignees);
  if decide (length keys = 0%nat) then
    emit (Info ("Skipping issue " +:+ template_number (number <$> issue')
                +:+ " because it is already assigned an owner"))
  else
    ref ← lift (parse_projectUrl projectUrl);
    (* First, use the GraphQL API to request the project's node ID. *)
    idResp ← graphql octokit (GetProject (ownerTypeQuery ref)
               {| var_projectOwnerName := projectOwnerName ref;
                  var_projectNumber := projectNumber ref |});
    issueResp ← graphql octokit IssueStatus;
    let projectId : option string :=
      id <$> ProjectNodeIDResponse_get idResp (ownerTypeQuery ref) in
    let contentId : option string := issue' ≫= node_id in
    issueStatus ← lift (first_node_field issueResp name);
    fieldId ← lift (first_node_field issueResp field_databaseId);
    (* Ensure the issue is open *)
    if decide (issueStatus ≠ Some openStatus) then
      emit (Info ("Skipping issue " +:+ template_number (number <$> issue')
                  +:+ " because it is not in an open status"))
    else
      (* Update the status of an item. *)
      updResp ← graphql octokit (UpdateIssueStatus
                  {| input_fieldId := fieldId;
                     input_contentId := contentId;
                     input_projectId := projectId;
                     input_issueStatus := issueStatus |});
      emit (SetOutput "fieldName" (name (projectV2Item_fieldValueByName updResp))).

(** How the promise settled. *)
Inductive Outcome := Resolved | Rejected (e : JsError).

(** One invocation: the actions performed and the outcome. *)
Definition run (inputs : Inputs) (payload : WebhookPayload) (octokit : Octokit) :
    list Event * Outcome :=
  match updateIssueStatus inputs payload octokit [] with
  | (tr, inr _) => (tr, Resolved)
  | (tr, inl e) => (tr, Rejected e)
  end.

(** ** The documented shape of a project URL *)

Fixpoint all_chars (p : ascii → bool) (s : string) : bool :=
  match s with
  | String c s' => p c && all_chars p s'
  | EmptyString => true
  end.

Definition not_slash (c : ascii) : bool := bool_decide (c ≠ "/"%char).

(** [[https://]github.com/(orgs|users)/<ownerName>/projects/<projectNumber>] *)
Definition documented_url (scheme tok owner digits : string) : string :=
  scheme +:+ "github.com/" +:+ tok +:+ "/" +:+ owner +:+ "/projects/" +:+ digits.

Record documented_parts (scheme tok owner digits : string) : Prop := {
  parts_scheme : scheme = "" ∨ scheme = "https://";
  parts_tok : tok = "orgs" ∨ tok = "users";
  parts_owner : owner ≠ "";
  parts_owner_chars : all_chars not_slash owner = true;
  parts_digits : digits ≠ "";
  parts_digits_chars : all_chars is_digit digits = true
}.

(** A string begins with a match of the documented pattern when such a URL
    is a prefix of it. *)
Definition begins_with_documented_pattern (s : string) : Prop :=
  ∃ scheme tok owner digits tail,
    documented_parts scheme tok owner digits ∧
    s = documented_url scheme tok owner digits +:+ tail.

(** The [groups] object of a match. *)
Definition groups_of (tok owner digits : string) : gmap string string :=
  <["projectNumber" := digits]> (<["ownerName" := owner]> (<["ownerType" := tok]> ∅)).

(** The longest prefix of [s] inside a class, and the rest of [s]. *)
Fixpoint class_run (a : ClassAtom) (s : string) : string :=
  match s with
  | String c s' => if class_matches a c then String c (class_run a s') else EmptyString
  | EmptyString => EmptyString
  end.

Fixpoint class_rest (a : ClassAtom) (s : string) : string :=
  match s with
  | String c s' => if class_matches a c then class_rest a s' else s
  | EmptyString => EmptyString
  end.

(** [[^/]] *)
Abbreviation not_slash_class := (NegatedClass ["/"%char]).

(** The pattern read from left to right as a plain function: the three
    captured substrings, when the input begins with a match. *)
Definition split_after_scheme (s : string) : option (string * string * string) :=
  s1 ← strip_prefix "github.com/" s;
  '(tok, s2) ←
    match strip_prefix "orgs" s1 with
    | Some r => Some ("orgs", r)
    | None => match strip_prefix "users" s1 with
              | Some r => Some ("users", r)
              | None => None
              end
    end;
  s3 ← strip_prefix "/" s2;
  let owner := class_run not_slash_class s3 in
  if decide (owner = "") then None else
  s4 ← strip_prefix "/projects/" (class_rest not_slash_class s3);
  let digits := class_run ClassEscape_d s4 in
  if decide (digits = "") then None else Some (tok, owner, digits).

Definition split_project_url (s : string) : option (string * string * string) :=
  match strip_prefix "https://" s with
  | Some s' => split_after_scheme s'
  | None => split_after_scheme s
  end.

Definition groups_of_split (p : string * string * string) : gmap string string :=
  let '(tok, owner, digits) := p in groups_of tok owner digits.

(** The pattern after [^(?:https:\/\/)?]. *)
Definition after_scheme : Regex :=
  Concat (Literal "github.com/")
 (Concat (NamedGroup "ownerType" (Disjunction (Literal "orgs") (Literal "users")))
 (Concat (Literal "/")
 (Concat (NamedGroup "ownerName" (OneOrMore not_slash_class))
 (Concat (Literal "/projects/")
         (NamedGroup "projectNumber" (OneOrMore ClassEscape_d)))))).

(** The client-side name a token of the URL stands for. *)
Definition owner_type_of (tok : string) : OwnerTypeQuery :=
  if decide (tok = "orgs") then organization else user.

(** ** One invocation as a decision tree

    [run] without the monad: every way an invocation can go, with the trace
    it leaves. *)

Definition skip_already_assigned (it : Item) : Event :=
  Info ("Skipping issue " +:+ pretty (number it) +:+ " because it is already assigned an owner").

Definition skip_not_open (it : Item) : Event :=
  Info ("Skipping issue " +:+ pretty (number it) +:+ " because it is not in an open status").

Definition getProject_call (ref : ProjectReference) : Event :=
  Graphql (GetProject (ownerTypeQuery ref)
             {| var_projectOwnerName := projectOwnerName ref;
                var_projectNumber := projectNumber ref |}).

Definition getProject_response (octokit : Octokit) (ref : ProjectReference) :
    JsError + ProjectNodeIDResponse.t :=
  graphql_getProject octokit (ownerTypeQuery ref)
    {| var_projectOwnerName := projectOwnerName ref;
       var_projectNumber := projectNumber ref |}.

(** The [input] object lines 167-172 build from what lines 125-128 read. *)
Definition mutation_input (it : Item) (ref : ProjectReference)
    (idResp : ProjectNodeIDResponse.t) (fv : option FieldValue) : UpdateInput :=
  {| input_fieldId := field_databaseId <$> fv;
     input_contentId := node_id it;
     input_projectId := id <$> ProjectNodeIDResponse_get idResp (ownerTypeQuery ref);
     input_issueStatus := name <$> fv |}.

Definition run_tree (inputs : Inputs) (payload : WebhookPayload) (octokit : Octokit) :
    list Event * Outcome :=
  match issue payload with
  | None => ([], Rejected (TypeError ObjectKeysOfUndefined))
  | Some it =>
    match assignees it with
    | None => ([], Rejected (TypeError ObjectKeysOfUndefined))
    | Some [] => ([skip_already_assigned it], Resolved)
    | Some (_ :: _) =>
      match parse_projectUrl (project_url inputs) with
      | inl e => ([], Rejected e)
      | inr ref =>
        match getProject_response octokit ref with
        | inl e => ([getProject_call ref], Rejected e)
        | inr idResp =>
          match graphql_issueStatus octokit with
          | inl e => ([getProject_call ref; Graphql IssueStatus], Rejected e)
          | inr issueResp =>
            match first_node_field issueResp (λ fv, fv) with
            | inl e => ([getProject_call ref; Graphql IssueStatus], Rejected e)
            | inr fv =>
              if decide (name <$> fv = Some (open_status inputs)) then
                let input := mutation_input it ref idResp fv in
                match graphql_updateIssueStatus octokit input with
                | inl e =>
                    ([getProject_call ref; Graphql IssueStatus;
                      Graphql (UpdateIssueStatus input)], Rejected e)
                | inr updResp =>
                    ([getProject_call ref; Graphql IssueStatus;
                      Graphql (UpdateIssueStatus input);
                      SetOutput "fieldName" (name (projectV2Item_fieldValueByName updResp))],
                     Resolved)
                end
              else
                ([getProject_call ref; Graphql IssueStatus; skip_not_open it], Resolved)
            end
          end
        end
      end
    end
  end.

(** ** A scripted invocation

    The inputs of the specification's end-to-end scenarios, item number 12,
    and a client that answers the three calls with fixed data. *)

Definition scenario_inputs (projectUrl : string) : Inputs :=
  {| project_url := projectUrl;
     github_token := "ghs_token";
     new_status := "In Progress";
     open_status := "Todo" |}.

Definition acme_url : string := "https://github.com/orgs/acme/projects/7".

Definition alice : Account := {| login := "alice" |}.

Definition item_12 (a : option (list Account)) : Item :=
  {| number := 12; node_id := Some "I_kwDO12"; assignees := a |}.

Definition issue_event (a : option (list Account)) : WebhookPayload :=
  {| issue := Some (item_12 a);
     pull_request := None;
     repository := Some {| owner := {| login := "acme" |} |} |}.

Definition pull_request_event (a : option (list Account)) : WebhookPayload :=
  {| issue := None;
     pull_request := Some (item_12 a);
     repository := Some {| owner := {| login := "acme" |} |} |}.

Definition status_node (status : string) : ProjectItemNode :=
  {| fieldValueByName := {| field_databaseId := "F_9"; name := status |} |}.

Definition scripted_octokit (nodes : list ProjectItemNode) : Octokit :=
  {| graphql_getProject := λ _ _,
       inr {| ProjectNodeIDResponse.organization := Some {| id := "PVT_1" |};
              ProjectNodeIDResponse.user := None |};
     graphql_issueStatus := inr (Some {| projectItems_nodes := nodes |});
     graphql_updateIssueStatus := λ _,
       inr {| projectV2Item_id := "PVTI_3";
              projectV2Item_fieldValueByName :=
                {| field_databaseId := "F_9"; name := "In Progress" |} |} |}.

Definition acme_getProject : Event :=
  Graphql (GetProject organization
             {| var_projectOwnerName := Some "acme"; var_projectNumber := Exact 7 |}).

(** Replacing the [pull_request] record of a payload. *)
Definition with_pull_request (pr : option Item) (payload : WebhookPayload) : WebhookPayload :=
  {| issue := issue payload; pull_request := pr; repository := repository payload |}.

(** The digit zero. *)
Definition is_zero (c : ascii) : bool := bool_decide (c = "0"%char).

(** ** Three statements of the specification, as it words them *)

(** The claim C4 as the specification words it: a URL of the documented
    shape yields its three parts, the number being a positive integer. *)
Definition C4_as_stated (scheme tok owner digits : string) : Prop :=
  documented_parts scheme tok owner digits →
  ∃ n : Z,
    0 < n ∧
    parse_projectUrl (documented_url scheme tok owner digits)
    = inr {| ownerTypeQuery := owner_type_of tok;
             projectOwnerName := Some owner;
             projectNumber := Exact n |}.

(** The claim C3 as the specification words it: whatever the payload, a URL
    that does not match is answered with the invalid-URL error and no
    network call. *)
Definition C3_as_stated (inputs : Inputs) (payload : WebhookPayload) (octokit : Octokit) : Prop :=
  ¬ begins_with_documented_pattern (project_url inputs) →
  ∃ tr,
    run inputs payload octokit = (tr, Rejected (invalid_project_url (project_url inputs))) ∧
    filter is_network_call tr = [].

Definition gitlab_url : string := "https://gitlab.com/orgs/acme/projects/7".

Definition teams_url : string := "https://github.com/teams/acme/projects/7".

(** The claim C7 as the specification words it, for a token other than
    "orgs" and "users": the workflow run on a project URL with that token
    fails with the unsupported-owner-type error, which names the token. *)
Definition C7_as_stated (tok : string) (inputs : Inputs) (payload : WebhookPayload)
    (octokit : Octokit) : Prop :=
  tok ≠ "orgs" → tok ≠ "users" →
  project_url inputs = "https://github.com/" +:+ tok +:+ "/acme/projects/7" →
  ∃ tr,
    run inputs payload octokit
    = (tr, Rejected (Error ("Unsupported ownerType: " +:+ tok
                            +:+ ". Must be one of 'orgs' or 'users'"))).

(** The claim C8 as the specification words it: with no linked project item
    the invocation fails with an error of its own, [MissingProjectItemError]
    - an [Error] the program constructs, not an error the runtime raises. *)
Definition C8_as_stated (inputs : Inputs) (payload : WebhookPayload) (octokit : Octokit) : Prop :=
  ∀ tr out r,
    run inputs payload octokit = (tr, out) →
    Graphql IssueStatus ∈ tr →
    graphql_issueStatus octokit = inr (Some r) →
    projectItems_nodes r = [] →
    ∃ message, out = Rejected (Error message).

(** ** The entry point, [src/main.ts] *)

Definition is_info (e : Event) : bool :=
  match e with Info _ => true | _ => false end.

(** What is left of the process when it exits: the actions of
    [updateIssueStatus], the message given to [core.setFailed] if it was
    called, and the exit code. *)
Record Process := {
  actions : list Event;
  failed : option string;
  exit_code : Z
}.

Section main_ts.

(** The text the runtime puts in the [message] of a [TypeError] it raises;
    it depends on the engine. *)
Variable runtime_message : TypeErrorSite → string.

(** [err.message] *)
Definition error_message (err : JsError) : string :=
  match err with
  | Error message => message
  | TypeError site => runtime_message site
  end.

(** [updateIssueStatus().catch(err => { core.setFailed(err.message);
    process.exit(1) }).then(() => { process.exit(0) })]: a rejection reaches
    the [catch] handler, which ends the process, so the [then] handler runs
    only after a resolved promise. *)
Definition main (inputs : Inputs) (payload : WebhookPayload) (octokit : Octokit) : Process :=
  match updateIssueStatus inputs payload octokit [] with
  | (tr, inl err) => {| actions := tr; failed := Some (error_message err); exit_code := 1 |}
  | (tr, inr _) => {| actions := tr; failed := None; exit_code := 0 |}
  end.

End main_ts.

(** * Properties *)

(** ** Facts about strings *)

Section string_facts.

Lemma app_cons (c : ascii) (s t : string) : String c s +:+ t = String c (s +:+ t).
  Proof. done. Qed.

Lemma app_empty_r (s : string) : s +:+ "" = s.
  Proof. induction s as [|c s IH]; [done|]. by rewrite app_cons, IH. Qed.

Lemma app_assoc (s t u : string) : (s +:+ t) +:+ u = s +:+ t +:+ u.
  Proof. induction s as [|c s IH]; [done|]. by rewrite !app_cons, IH. Qed.

Lemma strip_prefix_app (p r : string) : strip_prefix p (p +:+ r) = Some r.
  Proof.
    induction p as [|c p IH]; [done|].
    rewrite app_cons. cbn. by rewrite decide_True.
  Qed.

Lemma strip_prefix_Some (p s r : string) : strip_prefix p s = Some r → s = p +:+ r.
  Proof.
    revert s. induction p as [|c p IH]; intros s H.
    - cbn in H. by simplify_eq.
    - destruct s as [|b s]; [done|]. cbn in H.
      destruct (decide (c = b)) as [->|]; [|done].
      rewrite app_cons. f_equal. by apply IH.
  Qed.

Lemma take_app (p r : string) : take (String.length p) (p +:+ r) = p.
  Proof.
    induction p as [|c p IH]; [by destruct r|].
    rewrite app_cons. cbn. by rewrite IH.
  Qed.

Lemma class_run_rest (a : ClassAtom) (s : string) : s = class_run a s +:+ class_rest a s.
  Proof.
    induction s as [|c s IH]; [done|]. cbn.
    destruct (class_matches a c); [|done]. by rewrite app_cons, <- IH.
  Qed.

Lemma take_class_run (a : ClassAtom) (s : string) :
    take (String.length (class_run a s)) s = class_run a s.
  Proof.
    induction s as [|c s IH]; [done|]. cbn.
    destruct (class_matches a c); [|done]. cbn. by rewrite IH.
  Qed.

Lemma class_run_all (a : ClassAtom) (s : string) :
    all_chars (class_matches a) (class_run a s) = true.
  Proof.
    induction s as [|c s IH]; [done|]. cbn.
    destruct (class_matches a c) eqn:E; [|done]. cbn. by rewrite E.
  Qed.

  (** A run of class characters followed by any string: the run of the whole
      is the first part and the run of the second. *)
Lemma class_run_app (a : ClassAtom) (o t : string) :
    all_chars (class_matches a) o = true →
    class_run a (o +:+ t) = o +:+ class_run a t.
  Proof.
    induction o as [|c o IH]; [done|]. rewrite app_cons. cbn.
    intros [Hc Ho]%andb_true_iff. rewrite Hc. by rewrite app_cons, IH.
  Qed.

Lemma class_rest_app (a : ClassAtom) (o t : string) :
    all_chars (class_matches a) o = true →
    class_rest a (o +:+ t) = class_rest a t.
  Proof.
    induction o as [|c o IH]; [done|]. rewrite app_cons. cbn.
    intros [Hc Ho]%andb_true_iff. rewrite Hc. by apply IH.
  Qed.

End string_facts.

(** ** Facts about the matcher *)

Section matcher_facts.

  (** Greedy: when the continuation accepts the longest run, that is the
      result. *)
Lemma repeat_class_longest a s i k y :
    k (i + String.length (class_run a s))%nat (class_rest a s) = Some y →
    repeat_class a s i k = Some y.
  Proof.
    revert i. induction s as [|c s IH]; intros i; cbn.
    - by rewrite Nat.add_0_r.
    - destruct (class_matches a c); cbn.
      + rewrite Nat.add_succ_r. intros H. by rewrite (IH (S i) H).
      + by rewrite Nat.add_0_r.
  Qed.

  (** Backtracking: a continuation that rejects every input starting inside
      the class can only be satisfied after the longest run. *)
Lemma repeat_class_backtrack a s i k :
    (∀ j c t, class_matches a c = true → k j (String c t) = None) →
    repeat_class a s i k = k (i + String.length (class_run a s))%nat (class_rest a s).
  Proof.
    intros Hk. revert i. induction s as [|c s IH]; intros i; cbn.
    - by rewrite Nat.add_0_r.
    - destruct (class_matches a c) eqn:E; cbn.
      + rewrite Nat.add_succ_r, IH.
        destruct (k _ _) eqn:E'; [done|]. by apply Hk.
      + by rewrite Nat.add_0_r.
  Qed.

Lemma exec_from_caret r i s :
    exec_from (Concat Caret r) (S i) s = None.
  Proof. revert i. induction s as [|c s IH]; intros i; cbn; [done|]. apply IH. Qed.

Lemma exec_caret r s :
    exec_from (Concat Caret r) 0 s = matcher r (mkState 0 s ∅) Some.
  Proof.
    destruct s as [|c s]; cbn.
    - by destruct (matcher r _ _).
    - destruct (matcher r _ _); [done|]. apply exec_from_caret.
  Qed.

End matcher_facts.

(** ** What [urlParse] accepts *)

Section urlParse_facts.

Lemma group_Literal name l x k :
    matcher (NamedGroup name (Literal l)) x k =
    match strip_prefix l (rest x) with
    | Some r => k (mkState (endIndex x + String.length l) r (<[name := l]> (captures x)))
    | None => None
    end.
  Proof.
    cbn [matcher endIndex rest captures].
    destruct (strip_prefix l (rest x)) as [r|] eqn:E; [|done].
    apply strip_prefix_Some in E. rewrite E.
    replace (endIndex x + String.length l - endIndex x)%nat with (String.length l) by lia.
    by rewrite take_app.
  Qed.

Lemma group_OneOrMore name a x k :
    (∀ y c t, class_matches a c = true → rest y = String c t → k y = None) ∨
    (∀ y, is_Some (k y)) →
    matcher (NamedGroup name (OneOrMore a)) x k =
    if decide (class_run a (rest x) = "") then None
    else k (mkState (endIndex x + String.length (class_run a (rest x)))
                    (class_rest a (rest x))
                    (<[name := class_run a (rest x)]> (captures x))).
  Proof.
    intros Hk. cbn [matcher endIndex rest captures].
    destruct (rest x) as [|c s]; [done|]. cbn [class_run class_rest].
    destruct (class_matches a c) eqn:Hc; [|done].
    rewrite decide_False by done. cbn [String.length].
    set (k' := λ i t, k _).
    assert (k' (S (endIndex x) + String.length (class_run a s))%nat (class_rest a s)
            = k (mkState (endIndex x + S (String.length (class_run a s)))
                   (class_rest a s)
                   (<[name := String c (class_run a s)]> (captures x)))) as Hlast.
    { unfold k'. cbn [endIndex rest captures].
      replace (S (endIndex x) + String.length (class_run a s) - endIndex x)%nat
        with (S (String.length (class_run a s))) by lia.
      cbn [take]. rewrite take_class_run. f_equal. f_equal. lia. }
    destruct Hk as [Hk|Hk].
    - rewrite repeat_class_backtrack; [done|].
      intros j c' t Hc'. unfold k'. by eapply Hk.
    - destruct (Hk (mkState (endIndex x + S (String.length (class_run a s)))
                      (class_rest a s)
                      (<[name := String c (class_run a s)]> (captures x)))) as [y Hy].
      rewrite Hy. apply repeat_class_longest. by rewrite Hlast.
  Qed.

Lemma matcher_Concat r1 r2 x k :
    matcher (Concat r1 r2) x k = matcher r1 x (λ y, matcher r2 y k).
  Proof. done. Qed.

Lemma matcher_Literal l x k :
    matcher (Literal l) x k =
    match strip_prefix l (rest x) with
    | Some r => k (mkState (endIndex x + String.length l) r (captures x))
    | None => None
    end.
  Proof. done. Qed.

Lemma group_Disjunction name r1 r2 x k :
    matcher (NamedGroup name (Disjunction r1 r2)) x k =
    match matcher (NamedGroup name r1) x k with
    | Some z => Some z
    | None => matcher (NamedGroup name r2) x k
    end.
  Proof. done. Qed.

  (** From the owner type on, with the type [tok] already captured. *)
Lemma matcher_after_type (tok : string) i s :
    captures <$> matcher
      (Concat (Literal "/")
      (Concat (NamedGroup "ownerName" (OneOrMore not_slash_class))
      (Concat (Literal "/projects/")
              (NamedGroup "projectNumber" (OneOrMore ClassEscape_d)))))
      (mkState i s (<["ownerType" := tok]> ∅)) Some
    = (s3 ← strip_prefix "/" s;
       let owner := class_run not_slash_class s3 in
       if decide (owner = "") then None else
       s4 ← strip_prefix "/projects/" (class_rest not_slash_class s3);
       let digits := class_run ClassEscape_d s4 in
       if decide (digits = "") then None else Some (groups_of tok owner digits)).
  Proof.
    rewrite matcher_Concat, matcher_Literal. cbn [rest endIndex captures].
    destruct (strip_prefix "/" s) as [s3|]; [|done]. cbn [mbind option_bind].
    rewrite matcher_Concat, group_OneOrMore; cbn [rest endIndex captures].
    - destruct (decide (class_run not_slash_class s3 = "")); [done|].
      rewrite matcher_Concat, matcher_Literal. cbn [rest endIndex captures].
      destruct (strip_prefix "/projects/" _) as [s4|]; [|done]. cbn [mbind option_bind].
      rewrite group_OneOrMore by (right; eauto). cbn [rest endIndex captures].
      by destruct (decide (class_run ClassEscape_d s4 = "")).
    - left. intros y c t Hc Hy.
      rewrite matcher_Concat, matcher_Literal, Hy. cbn.
      rewrite decide_False; [done|].
      intros <-. by vm_compute in Hc.
  Qed.

Local Arguments strip_prefix : simpl never.
Local Arguments class_run : simpl never.
Local Arguments class_rest : simpl never.

Lemma matcher_after_scheme i s :
    captures <$> matcher after_scheme (mkState i s ∅) Some
    = groups_of_split <$> split_after_scheme s.
  Proof.
    unfold after_scheme, split_after_scheme.
    rewrite matcher_Concat, matcher_Literal. cbn [rest endIndex captures].
    destruct (strip_prefix "github.com/" s) as [s1|]; [|done]. cbn [mbind option_bind].
    rewrite matcher_Concat, group_Disjunction, !group_Literal.
    cbn [rest endIndex captures].
    assert (∀ m : option MatchState,
              match m with Some z => Some z | None => None end = m) as Hid
      by (by intros []).
    destruct (strip_prefix "orgs" s1) as [s2|] eqn:Horgs.
    - assert (strip_prefix "users" s1 = None) as ->.
      { apply strip_prefix_Some in Horgs. by rewrite Horgs. }
      pose proof (matcher_after_type "orgs" (i + String.length "github.com/" + String.length "orgs") s2) as H.
      rewrite Hid, H. cbn.
      destruct (strip_prefix "/" s2) as [s3|]; [|done]. cbn.
      destruct (decide _); [done|].
      destruct (strip_prefix "/projects/" _) as [s4|]; [|done]. cbn.
      by destruct (decide _).
    - destruct (strip_prefix "users" s1) as [s2|]; [|done].
      pose proof (matcher_after_type "users" (i + String.length "github.com/" + String.length "users") s2) as H.
      cbv beta iota. rewrite H. cbn.
      destruct (strip_prefix "/" s2) as [s3|]; [|done]. cbn.
      destruct (decide _); [done|].
      destruct (strip_prefix "/projects/" _) as [s4|]; [|done]. cbn.
      by destruct (decide _).
  Qed.

Lemma matcher_Optional_Literal l x k :
    l ≠ "" →
    matcher (Optional (Literal l)) x k =
    match strip_prefix l (rest x) with
    | Some r =>
        match k (mkState (endIndex x + String.length l) r (captures x)) with
        | Some z => Some z
        | None => k x
        end
    | None => k x
    end.
  Proof.
    intros Hl. cbn [matcher endIndex rest captures].
    destruct (strip_prefix l (rest x)); [|done].
    rewrite decide_False; [done|]. destruct l; [done|]. cbn. lia.
  Qed.

  (** [urlParse] finds a match exactly when the input splits, and its groups
      are the three parts. *)
Lemma String_match_urlParse s :
    String_match s urlParse = groups_of_split <$> split_project_url s.
  Proof.
    unfold String_match, urlParse. rewrite exec_caret.
    change (captures <$> matcher (Concat (Optional (Literal "https://")) after_scheme)
                           (mkState 0 s ∅) Some
            = groups_of_split <$> split_project_url s).
    rewrite matcher_Concat, matcher_Optional_Literal by done.
    cbn [endIndex rest captures]. unfold split_project_url.
    destruct (strip_prefix "https://" s) as [s'|] eqn:E.
    - pose proof (matcher_after_scheme 0 s) as H0.
      apply strip_prefix_Some in E.
      assert (split_after_scheme s = None) as Hs by (by rewrite E).
      rewrite Hs in H0.
      destruct (matcher after_scheme (mkState 0 s ∅) Some); [done|].
      rewrite <- (matcher_after_scheme (0 + String.length "https://") s').
      by destruct (matcher _ _ _).
    - apply matcher_after_scheme.
  Qed.

End urlParse_facts.

(** ** The pattern and the documented shape *)

Section documented_shape.

Lemma class_matches_not_slash c : class_matches not_slash_class c = not_slash c.
  Proof. unfold not_slash. cbn. apply bool_decide_ext. by rewrite list_elem_of_singleton. Qed.

Lemma all_chars_ext p q s : (∀ c, p c = q c) → all_chars p s = all_chars q s.
  Proof. intros H. induction s as [|c s IH]; [done|]. cbn. by rewrite H, IH. Qed.

Lemma all_chars_app p s t : all_chars p (s +:+ t) = all_chars p s && all_chars p t.
  Proof.
    induction s as [|c s IH]; [done|]. rewrite app_cons. cbn.
    by rewrite IH, andb_assoc.
  Qed.

Lemma split_after_scheme_complete tok owner digits tail :
    tok = "orgs" ∨ tok = "users" →
    owner ≠ "" → all_chars not_slash owner = true →
    digits ≠ "" → all_chars is_digit digits = true →
    split_after_scheme
      ("github.com/" +:+ tok +:+ "/" +:+ owner +:+ "/projects/" +:+ digits +:+ tail)
    = Some (tok, owner, digits +:+ class_run ClassEscape_d tail).
  Proof.
    intros Htok Ho Hoc Hd Hdc. unfold split_after_scheme.
    rewrite strip_prefix_app. cbn [mbind option_bind].
    assert (∀ r, match strip_prefix "orgs" (tok +:+ r) with
                 | Some r' => Some ("orgs", r')
                 | None => match strip_prefix "users" (tok +:+ r) with
                           | Some r' => Some ("users", r')
                           | None => None
                           end
                 end = Some (tok, r)) as -> by (by destruct Htok as [-> | ->]).
    cbn [mbind option_bind]. rewrite strip_prefix_app. cbn [mbind option_bind].
    assert (all_chars (class_matches not_slash_class) owner = true) as Hoc'.
    { by rewrite (all_chars_ext _ not_slash) by apply class_matches_not_slash. }
    rewrite class_run_app, class_rest_app by done.
    change (class_run not_slash_class ("/projects/" +:+ digits +:+ tail)) with "".
    change (class_rest not_slash_class ("/projects/" +:+ digits +:+ tail))
      with ("/projects/" +:+ digits +:+ tail).
    rewrite app_empty_r, decide_False by done.
    rewrite strip_prefix_app. cbn [mbind option_bind].
    rewrite class_run_app by done.
    rewrite decide_False; [done|]. by destruct digits.
  Qed.

Lemma split_after_scheme_sound s tok owner digits :
    split_after_scheme s = Some (tok, owner, digits) →
    ∃ tail,
      (tok = "orgs" ∨ tok = "users") ∧
      owner ≠ "" ∧ all_chars not_slash owner = true ∧
      digits ≠ "" ∧ all_chars is_digit digits = true ∧
      s = "github.com/" +:+ tok +:+ "/" +:+ owner +:+ "/projects/" +:+ digits +:+ tail.
  Proof.
    unfold split_after_scheme. intros H.
    apply bind_Some in H as (s1 & E1 & H).
    apply bind_Some in H as ([tok' s2] & Etok & H).
    apply bind_Some in H as (s3 & E3 & H).
    cbv zeta in H. case_decide as Ho; [done|].
    apply bind_Some in H as (s4 & E4 & H).
    case_decide as Hd; [done|]. simplify_eq.
    apply strip_prefix_Some in E1 as ->.
    apply strip_prefix_Some in E3 as ->.
    apply strip_prefix_Some in E4.
    assert ((tok = "orgs" ∨ tok = "users") ∧ s1 = tok +:+ "/" +:+ s3) as [Htok ->].
    { destruct (strip_prefix "orgs" s1) as [r|] eqn:E2.
      - apply strip_prefix_Some in E2. simplify_eq. auto.
      - destruct (strip_prefix "users" s1) as [r|] eqn:E2'; [|done].
        apply strip_prefix_Some in E2'. simplify_eq. auto. }
    exists (class_rest ClassEscape_d s4). split_and!; try done.
    - rewrite <- (all_chars_ext _ _ _ class_matches_not_slash). apply class_run_all.
    - apply (class_run_all ClassEscape_d).
    - do 3 f_equal. rewrite (class_run_rest not_slash_class s3) at 1. rewrite E4.
      do 2 f_equal. apply class_run_rest.
  Qed.

Lemma split_project_url_complete scheme tok owner digits tail :
    documented_parts scheme tok owner digits →
    split_project_url (documented_url scheme tok owner digits +:+ tail)
    = Some (tok, owner, digits +:+ class_run ClassEscape_d tail).
  Proof.
    intros [Hs Htok Ho Hoc Hd Hdc]. unfold documented_url, split_project_url.
    rewrite !app_assoc.
    destruct Hs as [-> | ->].
    - change ("" +:+ ?x) with x.
      replace (strip_prefix "https://" _) with (@None string)
        by (by destruct Htok as [-> | ->]).
      by apply split_after_scheme_complete.
    - rewrite strip_prefix_app. by apply split_after_scheme_complete.
  Qed.

Lemma split_project_url_sound s tok owner digits :
    split_project_url s = Some (tok, owner, digits) →
    ∃ scheme tail,
      documented_parts scheme tok owner digits ∧
      s = documented_url scheme tok owner digits +:+ tail.
  Proof.
    unfold split_project_url, documented_url. intros H.
    destruct (strip_prefix "https://" s) as [s'|] eqn:E.
    - apply strip_prefix_Some in E as ->.
      apply split_after_scheme_sound in H as (tail & ? & ? & ? & ? & ? & ->).
      exists "https://", tail. split; [by split; auto|]. by rewrite !app_assoc.
    - apply split_after_scheme_sound in H as (tail & ? & ? & ? & ? & ? & ->).
      exists "", tail. split; [by split; auto|]. by rewrite !app_assoc.
  Qed.

  (** The pattern finds a match exactly in the strings that begin with a URL
      of the documented shape. *)
Lemma String_match_begins s :
    is_Some (String_match s urlParse) ↔ begins_with_documented_pattern s.
  Proof.
    rewrite String_match_urlParse, fmap_is_Some. split.
    - intros [[[tok owner] digits] H].
      apply split_project_url_sound in H as (scheme & tail & ? & ?).
      by exists scheme, tok, owner, digits, tail.
    - intros (scheme & tok & owner & digits & tail & Hp & ->).
      rewrite split_project_url_complete by done. eauto.
  Qed.

Lemma String_match_None s :
    String_match s urlParse = None ↔ ¬ begins_with_documented_pattern s.
  Proof. rewrite <- String_match_begins, eq_None_not_Some. done. Qed.

End documented_shape.

(** ** Facts about [parseInt] *)

Section parseInt_facts.

Lemma digit_run_class_run s : digit_run s = class_run ClassEscape_d s.
  Proof. induction s as [|c s IH]; [done|]. cbn. by rewrite IH. Qed.

Lemma class_run_digits d :
    all_chars is_digit d = true → class_run ClassEscape_d d = d.
  Proof.
    intros H. rewrite <- (app_empty_r d) at 1.
    rewrite class_run_app by done. cbn. apply app_empty_r.
  Qed.

Lemma digit_value_bounds c : is_digit c = true → 0 ≤ digit_value c ≤ 9.
  Proof.
    unfold is_digit, digit_value. intros H%bool_decide_eq_true. lia.
  Qed.

Lemma decimal_from_nonneg acc d :
    all_chars is_digit d = true → 0 ≤ acc → 0 ≤ decimal_from acc d.
  Proof.
    revert acc. induction d as [|c d IH]; intros acc H Hacc; [done|].
    cbn in H. apply andb_true_iff in H as [Hc Hd]. cbn.
    apply IH; [done|]. pose proof (digit_value_bounds c Hc). lia.
  Qed.

Lemma decimal_nonneg d : all_chars is_digit d = true → 0 ≤ decimal d.
  Proof. intros. by apply decimal_from_nonneg. Qed.

  (** A digit is neither white space nor a sign, so [parseInt] reads a string
      of digits from its first character to its last. *)
Lemma parseInt_digits d :
    d ≠ "" → all_chars is_digit d = true →
    parseInt d = number_of_mathInt (decimal d).
  Proof.
    intros Hd Hall. destruct d as [|c d]; [done|]. clear Hd.
    pose proof Hall as Hall'. cbn in Hall'.
    apply andb_true_iff in Hall' as [Hc Hrest].
    assert (parseInt (String c d)
            = match digit_run (String c d) with
              | "" => NaN
              | _ => number_of_mathInt (1 * decimal (digit_run (String c d)))
              end) as ->.
    { unfold parseInt. cbn [trim_start].
      destruct c as [[] [] [] [] [] [] [] []]; try done; by vm_compute in Hc. }
    rewrite digit_run_class_run, class_run_digits by done.
    by rewrite Z.mul_1_l.
  Qed.

End parseInt_facts.

(** ** Facts about the URL block *)

Section parse_projectUrl_facts.

Lemma lookup_groups_of tok owner digits :
    groups_of tok owner digits !! "ownerType" = Some tok ∧
    groups_of tok owner digits !! "ownerName" = Some owner ∧
    groups_of tok owner digits !! "projectNumber" = Some digits.
  Proof. unfold groups_of. split_and!; by simplify_map_eq. Qed.

Lemma parse_projectUrl_begins scheme tok owner digits tail :
    documented_parts scheme tok owner digits →
    parse_projectUrl (documented_url scheme tok owner digits +:+ tail)
    = inr {| ownerTypeQuery := owner_type_of tok;
             projectOwnerName := Some owner;
             projectNumber :=
               number_of_mathInt (decimal (digits +:+ class_run ClassEscape_d tail)) |}.
  Proof.
    intros Hp. unfold parse_projectUrl.
    rewrite String_match_urlParse, split_project_url_complete by done.
    cbn [fmap option_fmap option_map groups_of_split].
    destruct (lookup_groups_of tok owner (digits +:+ class_run ClassEscape_d tail))
      as (-> & -> & ->).
    cbn [default]. destruct Hp as [_ Htok _ _ Hd Hdc].
    assert (digits +:+ class_run ClassEscape_d tail ≠ "") as Hne
      by (by destruct digits).
    assert (all_chars is_digit (digits +:+ class_run ClassEscape_d tail) = true) as Hall.
    { rewrite all_chars_app, Hdc. apply (class_run_all ClassEscape_d). }
    change (Datatypes.id ?x) with x. rewrite (parseInt_digits _ Hne Hall).
    by destruct Htok as [-> | ->].
  Qed.

Lemma parse_projectUrl_no_match s :
    ¬ begins_with_documented_pattern s →
    parse_projectUrl s = inl (invalid_project_url s).
  Proof.
    intros H%String_match_None. unfold parse_projectUrl. by rewrite H.
  Qed.

End parse_projectUrl_facts.

Lemma run_run_tree inputs payload octokit :
  run inputs payload octokit = run_tree inputs payload octokit.
Proof.
  unfold run, run_tree, updateIssueStatus, getProject_response, getProject_call,
    skip_already_assigned, skip_not_open, mutation_input.
  unfold graphql, mbind, Action_bind, lift, emit, respond.
  destruct (issue payload) as [it|]; [|done]. cbn.
  destruct (assignees it) as [[|a l]|]; [done| |done]. cbn.
  destruct (parse_projectUrl _) as [e|ref]; [done|]. cbn.
  destruct (graphql_getProject _ _ _) as [e|idResp]; [done|]. cbn.
  destruct (graphql_issueStatus _) as [e|issueResp]; [done|]. cbn.
  unfold first_node_field.
  destruct issueResp as [r|]; cbn.
  - destruct (projectItems_nodes r) as [|node nodes]; [done|]. cbn.
    repeat case_decide; try done; simplify_eq/=.
    by destruct (graphql_updateIssueStatus _ _).
  - repeat case_decide; done.
Qed.

(** ** The claims *)

(** *** The owner type *)

(** What [mustGetOwnerTypeQuery] does with a token, lines 181-189. *)
Lemma mustGetOwnerTypeQuery_tokens (ownerType : option string) :
  (ownerType = Some "orgs" → mustGetOwnerTypeQuery ownerType = inr organization) ∧
  (ownerType = Some "users" → mustGetOwnerTypeQuery ownerType = inr user) ∧
  (ownerType ≠ Some "orgs" → ownerType ≠ Some "users" →
   mustGetOwnerTypeQuery ownerType =
     inl (Error ("Unsupported ownerType: " +:+ template_string ownerType
                 +:+ ". Must be one of 'orgs' or 'users'"))).
Proof.
  unfold mustGetOwnerTypeQuery. split_and!.
  - by intros ->.
  - by intros ->.
  - intros H1 H2. by rewrite !decide_False.
Qed.

(** Two texts without a slash that are each followed by a slash in the same
    string are the same text. *)
Lemma slash_free_prefix_unique (a b x y : string) :
  all_chars not_slash a = true → all_chars not_slash b = true →
  a +:+ "/" +:+ x = b +:+ "/" +:+ y → a = b.
Proof.
  revert b. induction a as [|c a IH]; intros [|d b] Ha Hb H; [done| | |].
  - rewrite app_cons in H. cbn in Hb. apply andb_true_iff in Hb as [Hd _].
    change ("" +:+ "/" +:+ x) with (String "/" x) in H. by simplify_eq.
  - rewrite app_cons in H. cbn in Ha. apply andb_true_iff in Ha as [Hc _].
    change ("" +:+ "/" +:+ y) with (String "/" y) in H. by simplify_eq.
  - rewrite !app_cons in H. cbn in Ha, Hb.
    apply andb_true_iff in Ha as [_ Ha]. apply andb_true_iff in Hb as [_ Hb].
    simplify_eq. f_equal. by eapply IH.
Qed.

(** A URL whose owner-type token is neither "orgs" nor "users" has no match. *)
Lemma other_token_no_match (scheme tok rest : string) :
  scheme = "" ∨ scheme = "https://" →
  all_chars not_slash tok = true →
  tok ≠ "orgs" → tok ≠ "users" →
  ¬ begins_with_documented_pattern (scheme +:+ "github.com/" +:+ tok +:+ "/" +:+ rest).
Proof.
  intros Hs Htok Ho Hu. apply String_match_None.
  rewrite String_match_urlParse.
  assert (split_after_scheme ("github.com/" +:+ tok +:+ "/" +:+ rest) = None) as Hsplit.
  { unfold split_after_scheme. rewrite strip_prefix_app. cbn [mbind option_bind].
    destruct (strip_prefix "orgs" (tok +:+ "/" +:+ rest)) as [r|] eqn:E1.
    - cbn [mbind option_bind].
      destruct (strip_prefix "/" r) as [r'|] eqn:E2; [|done].
      apply strip_prefix_Some in E1. apply strip_prefix_Some in E2. subst r.
      by apply slash_free_prefix_unique in E1.
    - destruct (strip_prefix "users" (tok +:+ "/" +:+ rest)) as [r|] eqn:E3; [|done].
      cbn [mbind option_bind].
      destruct (strip_prefix "/" r) as [r'|] eqn:E2; [|done].
      apply strip_prefix_Some in E3. apply strip_prefix_Some in E2. subst r.
      by apply slash_free_prefix_unique in E3. }
  unfold split_project_url. destruct Hs as [-> | ->].
  - change ("" +:+ ?x) with x.
    replace (strip_prefix "https://" _) with (@None string) by done.
    by rewrite Hsplit.
  - rewrite strip_prefix_app. by rewrite Hsplit.
Qed.

(** C7, counterexample. With the token "teams" in the project URL and an
    item that passes the gate, the workflow fails with the invalid-URL
    error, not with the unsupported-owner-type error. *)
Lemma C7_counterexample :
  ¬ C7_as_stated "teams" (scenario_inputs teams_url) (issue_event (Some [alice]))
      (scripted_octokit [status_node "Todo"]).
Proof.
  intros H. destruct H as [tr Hrun]; [discriminate | discriminate | reflexivity |].
  vm_compute in Hrun. discriminate.
Qed.

(** C7, amended. [mustGetOwnerTypeQuery] resolves the token "orgs" to the
    organization query and "users" to the user query, and for any other
    token, the absent one included, throws an error whose message names the
    token.  In the workflow the token is the one the pattern captured: the
    owner type of a parsed URL is the one its token resolves to, a URL with
    another token has no match, so that an invocation on it either ends at
    the gate or fails with the invalid-URL error, and an error of the URL
    block is always the invalid-URL error, never the unsupported-owner-type
    one. *)
Theorem C7_owner_type_in_workflow (ownerType : option string) :
  (ownerType = Some "orgs" → mustGetOwnerTypeQuery ownerType = inr organization) ∧
  (ownerType = Some "users" → mustGetOwnerTypeQuery ownerType = inr user) ∧
  (ownerType ≠ Some "orgs" → ownerType ≠ Some "users" →
   mustGetOwnerTypeQuery ownerType =
     inl (Error ("Unsupported ownerType: " +:+ template_string ownerType
                 +:+ ". Must be one of 'orgs' or 'users'"))) ∧
  (∀ scheme tok owner digits tail ref,
     documented_parts scheme tok owner digits →
     parse_projectUrl (documented_url scheme tok owner digits +:+ tail) = inr ref →
     mustGetOwnerTypeQuery (Some tok) = inr (ownerTypeQuery ref)) ∧
  (∀ scheme tok rest inputs payload octokit,
     scheme = "" ∨ scheme = "https://" →
     all_chars not_slash tok = true →
     tok ≠ "orgs" → tok ≠ "users" →
     project_url inputs = scheme +:+ "github.com/" +:+ tok +:+ "/" +:+ rest →
     parse_projectUrl (project_url inputs) = inl (invalid_project_url (project_url inputs)) ∧
     (run inputs payload octokit = ([], Rejected (invalid_project_url (project_url inputs)))
      ∨ (∃ it, issue payload = Some it ∧
           run inputs payload octokit = ([skip_already_assigned it], Resolved))
      ∨ run inputs payload octokit = ([], Rejected (TypeError ObjectKeysOfUndefined)))) ∧
  (∀ url e, parse_projectUrl url = inl e → e = invalid_project_url url).
Proof.
  destruct (mustGetOwnerTypeQuery_tokens ownerType) as (H1 & H2 & H3).
  split_and!; try done.
  - intros scheme tok owner digits tail ref Hp Hparse.
    rewrite parse_projectUrl_begins in Hparse by done. simplify_eq. cbn.
    by destruct Hp as [_ [-> | ->] _ _ _ _].
  - intros scheme tok rest inputs payload octokit Hs Htok Ho Hu Hurl.
    assert (parse_projectUrl (project_url inputs)
            = inl (invalid_project_url (project_url inputs))) as Hparse.
    { apply parse_projectUrl_no_match. rewrite Hurl. by apply other_token_no_match. }
    split; [done|].
    rewrite run_run_tree. unfold run_tree. rewrite Hparse.
    destruct (issue payload) as [it|]; [|by auto].
    destruct (assignees it) as [[|a l]|]; eauto.
  - intros url e He.
    destruct (String_match url urlParse) as [g|] eqn:Hm.
    + assert (begins_with_documented_pattern url) as Hb
        by (apply String_match_begins; eauto).
      destruct Hb as (scheme & tok & owner & digits & tail & Hp & ->).
      by rewrite parse_projectUrl_begins in He.
    + unfold parse_projectUrl in He. rewrite Hm in He. by simplify_eq.
Qed.

Lemma C7_owner_type_in_workflow_witness :
  mustGetOwnerTypeQuery (Some "orgs") = inr organization ∧
  mustGetOwnerTypeQuery (Some "users") = inr user ∧
  mustGetOwnerTypeQuery (Some "teams") =
    inl (Error "Unsupported ownerType: teams. Must be one of 'orgs' or 'users'") ∧
  mustGetOwnerTypeQuery None =
    inl (Error "Unsupported ownerType: undefined. Must be one of 'orgs' or 'users'") ∧
  parse_projectUrl teams_url = inl (invalid_project_url teams_url).
Proof.
  split_and!.
  - apply (C7_owner_type_in_workflow (Some "orgs")). reflexivity.
  - apply (C7_owner_type_in_workflow (Some "users")). reflexivity.
  - apply (C7_owner_type_in_workflow (Some "teams")); discriminate.
  - apply (C7_owner_type_in_workflow None); discriminate.
  - refine (proj1 (proj1 (proj2 (proj2 (proj2 (proj2
      (C7_owner_type_in_workflow None)))))
      "https://" "teams" "acme/projects/7" (scenario_inputs teams_url)
      (issue_event (Some [alice])) (scripted_octokit [status_node "Todo"]) _ _ _ _ _)).
    + right. reflexivity.
    + reflexivity.
    + discriminate.
    + discriminate.
    + reflexivity.
Defined.

(** *** The eligibility gate *)

(** C9. The assignees the gate looks at come from [payload.issue] alone: the
    [pull_request] record has no influence on an invocation, and when the
    payload has no issue, or an issue without assignees, [Object.keys] is
    applied to [undefined] and the invocation is rejected with a [TypeError]
    before anything is logged or sent. *)
Theorem C9_assignees_only_from_issue inputs payload octokit :
  (∀ pr, run inputs (with_pull_request pr payload) octokit = run inputs payload octokit) ∧
  (issue payload = None ∨ (∃ it, issue payload = Some it ∧ assignees it = None) →
   run inputs payload octokit = ([], Rejected (TypeError ObjectKeysOfUndefined))).
Proof.
  split.
  - intros pr. rewrite !run_run_tree. unfold run_tree, with_pull_request. cbn.
    by destruct (issue payload).
  - rewrite run_run_tree. unfold run_tree.
    intros [-> | (it & -> & ->)]; done.
Qed.

Lemma C9_assignees_only_from_issue_witness :
  run (scenario_inputs acme_url) (pull_request_event (Some [alice])) (scripted_octokit [status_node "Todo"])
  = ([], Rejected (TypeError ObjectKeysOfUndefined)) ∧
  run (scenario_inputs acme_url) (issue_event None) (scripted_octokit [status_node "Todo"])
  = ([], Rejected (TypeError ObjectKeysOfUndefined)).
Proof.
  split.
  - apply C9_assignees_only_from_issue. left. reflexivity.
  - apply C9_assignees_only_from_issue. right. exists (item_12 None). split; reflexivity.
Defined.

(** C2. The specification has an item with assignees skipped at the gate.
    The program tests [Object.keys(issueAssignees).length === 0]: an item
    with an assignee goes on to the three remote calls, and it is the item
    without assignees that is skipped, under a message saying that it is
    already assigned. *)
Theorem C2_gate_skips_the_unassigned :
  run (scenario_inputs acme_url) (issue_event (Some [alice])) (scripted_octokit [status_node "Todo"])
  = ([acme_getProject;
      Graphql IssueStatus;
      Graphql (UpdateIssueStatus
                 {| input_fieldId := Some "F_9";
                    input_contentId := Some "I_kwDO12";
                    input_projectId := Some "PVT_1";
                    input_issueStatus := Some "Todo" |});
      SetOutput "fieldName" "In Progress"], Resolved) ∧
  run (scenario_inputs acme_url) (issue_event (Some [])) (scripted_octokit [status_node "Todo"])
  = ([Info "Skipping issue 12 because it is already assigned an owner"], Resolved).
Proof. split; vm_compute; reflexivity. Qed.

(** *** The mutation *)

(** The configured new status is read and never used. *)
Lemma new_status_unused url token new1 new2 open payload octokit :
  run {| project_url := url; github_token := token; new_status := new1; open_status := open |}
      payload octokit
  = run {| project_url := url; github_token := token; new_status := new2; open_status := open |}
      payload octokit.
Proof. by rewrite !run_run_tree. Qed.

(** C1. In the scenario with current status "Todo", open status "Todo" and
    new status "In Progress", the [input] of the mutation carries the status
    that was read, "Todo"; "In Progress" is not sent, and whatever the new
    status is set to the invocation is the same. *)
Theorem C1_mutation_sends_the_current_status :
  run (scenario_inputs acme_url) (issue_event (Some [alice])) (scripted_octokit [status_node "Todo"])
  = ([acme_getProject;
      Graphql IssueStatus;
      Graphql (UpdateIssueStatus
                 {| input_fieldId := Some "F_9";
                    input_contentId := Some "I_kwDO12";
                    input_projectId := Some "PVT_1";
                    input_issueStatus := Some "Todo" |});
      SetOutput "fieldName" "In Progress"], Resolved) ∧
  new_status (scenario_inputs acme_url) = "In Progress" ∧
  ∀ newStatus payload octokit,
    run {| project_url := acme_url; github_token := "ghs_token";
           new_status := newStatus; open_status := "Todo" |} payload octokit
    = run (scenario_inputs acme_url) payload octokit.
Proof.
  split_and!; [vm_compute; reflexivity | reflexivity |].
  intros. apply new_status_unused.
Qed.

(** *** The project URL *)

Lemma decimal_from_pos acc d :
  all_chars is_digit d = true → 0 < acc → 0 < decimal_from acc d.
Proof.
  revert acc. induction d as [|c d IH]; intros acc H Hacc; [done|].
  cbn in H. apply andb_true_iff in H as [Hc Hd]. cbn.
  apply IH; [done|]. pose proof (digit_value_bounds c Hc). lia.
Qed.

(** A run of digits denotes zero exactly when all of them are zeros. *)
Lemma decimal_zero d :
  all_chars is_digit d = true → (decimal d = 0 ↔ all_chars is_zero d = true).
Proof.
  unfold decimal. induction d as [|c d IH]; intros H; [done|].
  cbn in H. apply andb_true_iff in H as [Hc Hd]. cbn.
  pose proof (digit_value_bounds c Hc) as Hv.
  destruct (is_zero c) eqn:Hz.
  - apply bool_decide_eq_true in Hz as ->. cbn. by apply IH.
  - cbn. split; [|done]. intros H0.
    assert (digit_value c ≠ 0) as Hne.
    { intros Hv0. apply bool_decide_eq_false in Hz. apply Hz.
      unfold digit_value in Hv0.
      assert (N_of_ascii c = 48%N) as HN by lia.
      rewrite <- (ascii_N_embedding c), HN. reflexivity. }
    pose proof (decimal_from_pos (10 * 0 + digit_value c) d Hd). lia.
Qed.

(** C4, counterexample. [github.com/orgs/acme/projects/0] has the documented
    shape and its project number is parsed as 0. *)
Lemma C4_counterexample : ¬ C4_as_stated "" "orgs" "acme" "0".
Proof.
  intros H. destruct H as (n & Hn & H).
  - split; auto.
  - vm_compute in H. simplify_eq. lia.
Qed.

(** C4, amended. For every URL of the documented shape the parser yields the
    owner type of the token, the owner name and the number its digit run
    denotes in base 10: never negative, zero exactly when the digits are all
    zeros, and an exact Number up to 2^53.  The two URLs of the scenarios
    parse as stated. *)
Theorem C4_parses_documented_urls scheme tok owner digits :
  documented_parts scheme tok owner digits →
  parse_projectUrl (documented_url scheme tok owner digits)
  = inr {| ownerTypeQuery := owner_type_of tok;
           projectOwnerName := Some owner;
           projectNumber := number_of_mathInt (decimal digits) |} ∧
  0 ≤ decimal digits ∧
  (decimal digits = 0 ↔ all_chars is_zero digits = true) ∧
  (decimal digits ≤ 2 ^ 53 → number_of_mathInt (decimal digits) = Exact (decimal digits)) ∧
  parse_projectUrl "https://github.com/orgs/acme/projects/7"
  = inr {| ownerTypeQuery := organization;
           projectOwnerName := Some "acme";
           projectNumber := Exact 7 |} ∧
  parse_projectUrl "github.com/users/jdoe/projects/3"
  = inr {| ownerTypeQuery := user;
           projectOwnerName := Some "jdoe";
           projectNumber := Exact 3 |}.
Proof.
  intros Hp. pose proof (parts_digits_chars _ _ _ _ Hp) as Hdc.
  pose proof (decimal_nonneg digits Hdc) as Hnn.
  split_and!.
  - rewrite <- (app_empty_r (documented_url scheme tok owner digits)).
    rewrite parse_projectUrl_begins by done.
    change (class_run ClassEscape_d "") with "". by rewrite app_empty_r.
  - done.
  - by apply decimal_zero.
  - intros Hle. unfold number_of_mathInt. rewrite decide_True; [done|]. lia.
  - vm_compute. reflexivity.
  - vm_compute. reflexivity.
Qed.

Lemma C4_parses_documented_urls_witness :
  documented_parts "https://" "orgs" "acme" "7" ∧
  parse_projectUrl (documented_url "https://" "orgs" "acme" "7")
  = inr {| ownerTypeQuery := owner_type_of "orgs";
           projectOwnerName := Some "acme";
           projectNumber := number_of_mathInt (decimal "7") |}.
Proof.
  assert (documented_parts "https://" "orgs" "acme" "7") as Hp.
  { split; [right; reflexivity | left; reflexivity | discriminate
           | reflexivity | discriminate | reflexivity]. }
  split; [exact Hp|].
  apply (C4_parses_documented_urls "https://" "orgs" "acme" "7" Hp).
Defined.

(** C10. The pattern is anchored at the start only.  Whatever follows a URL
    of the documented shape, parsing succeeds and the project number is read
    from the longest run of digits after [/projects/]; a text before the URL
    makes the match fail; and the run "0" gives project number 0. *)
Theorem C10_prefix_match scheme tok owner digits tail :
  documented_parts scheme tok owner digits →
  parse_projectUrl (documented_url scheme tok owner digits +:+ tail)
  = inr {| ownerTypeQuery := owner_type_of tok;
           projectOwnerName := Some owner;
           projectNumber := number_of_mathInt (decimal (digit_run (digits +:+ tail))) |} ∧
  parse_projectUrl "https://github.com/orgs/acme/projects/7/views/1?layout=board"
  = inr {| ownerTypeQuery := organization;
           projectOwnerName := Some "acme";
           projectNumber := Exact 7 |} ∧
  parse_projectUrl "github.com/users/jdoe/projects/3abc"
  = inr {| ownerTypeQuery := user;
           projectOwnerName := Some "jdoe";
           projectNumber := Exact 3 |} ∧
  parse_projectUrl "https://github.com/orgs/acme/projects/0"
  = inr {| ownerTypeQuery := organization;
           projectOwnerName := Some "acme";
           projectNumber := Exact 0 |} ∧
  String_match "see https://github.com/orgs/acme/projects/7" urlParse = None.
Proof.
  intros Hp. split; [|split_and!; vm_compute; reflexivity].
  rewrite parse_projectUrl_begins by done.
  rewrite digit_run_class_run, class_run_app; [done|].
  apply (parts_digits_chars _ _ _ _ Hp).
Qed.

Lemma C10_prefix_match_witness :
  documented_parts "" "users" "jdoe" "3" ∧
  parse_projectUrl (documented_url "" "users" "jdoe" "3" +:+ "0/views/1")
  = inr {| ownerTypeQuery := owner_type_of "users";
           projectOwnerName := Some "jdoe";
           projectNumber := number_of_mathInt (decimal (digit_run ("3" +:+ "0/views/1"))) |}.
Proof.
  assert (documented_parts "" "users" "jdoe" "3") as Hp.
  { split; [left; reflexivity | right; reflexivity | discriminate
           | reflexivity | discriminate | reflexivity]. }
  split; [exact Hp|].
  apply (C10_prefix_match "" "users" "jdoe" "3" "0/views/1" Hp).
Defined.

Lemma gitlab_url_no_match : ¬ begins_with_documented_pattern gitlab_url.
Proof. apply String_match_None. vm_compute. reflexivity. Defined.

(** C3, counterexample. With the URL of scenario 3 and an item that has no
    assignee, the invocation ends at the gate, successfully, and the URL is
    never parsed. *)
Lemma C3_counterexample :
  ¬ C3_as_stated (scenario_inputs gitlab_url) (issue_event (Some []))
      (scripted_octokit [status_node "Todo"]).
Proof.
  intros H. destruct (H gitlab_url_no_match) as (tr & Hrun & _).
  vm_compute in Hrun. discriminate.
Qed.

(** C3, amended. The gate comes before the URL is parsed.  For every URL in
    which the pattern finds no match, an invocation either ends at the gate
    (skipped, or rejected with the [TypeError] of [Object.keys]) or is
    rejected with the invalid-URL error, whose message carries the URL; in
    each case nothing is sent to the remote API. *)
Theorem C3_invalid_url inputs payload octokit :
  ¬ begins_with_documented_pattern (project_url inputs) →
  (run inputs payload octokit = ([], Rejected (invalid_project_url (project_url inputs)))
   ∨ (∃ it, issue payload = Some it ∧
        run inputs payload octokit = ([skip_already_assigned it], Resolved))
   ∨ run inputs payload octokit = ([], Rejected (TypeError ObjectKeysOfUndefined))) ∧
  filter is_network_call (run inputs payload octokit).1 = [] ∧
  invalid_project_url (project_url inputs)
  = Error ("Invalid project URL: " +:+ project_url inputs
           +:+ ". Project URL should match the format https://github.com/<orgs-or-users>/<ownerName>/projects/<projectNumber>").
Proof.
  intros H%parse_projectUrl_no_match.
  rewrite run_run_tree. unfold run_tree. rewrite H.
  destruct (issue payload) as [it|]; [|by auto].
  destruct (assignees it) as [[|a l]|]; split_and!; eauto.
Qed.

Lemma C3_invalid_url_witness :
  ¬ begins_with_documented_pattern gitlab_url ∧
  run (scenario_inputs gitlab_url) (issue_event (Some [alice]))
    (scripted_octokit [status_node "Todo"])
  = ([], Rejected (invalid_project_url gitlab_url)) ∧
  filter is_network_call
    (run (scenario_inputs gitlab_url) (issue_event (Some [alice]))
       (scripted_octokit [status_node "Todo"])).1 = [].
Proof.
  assert (¬ begins_with_documented_pattern gitlab_url) as Hno.
  { apply String_match_None. vm_compute. reflexivity. }
  split; [exact Hno|].
  pose proof (C3_invalid_url (scenario_inputs gitlab_url) (issue_event (Some [alice]))
                (scripted_octokit [status_node "Todo"]) Hno) as (_ & Hcalls & _).
  split; [vm_compute; reflexivity | exact Hcalls].
Defined.

(** *** After the status query *)

Ltac run_cases H :=
  rewrite run_run_tree in H; unfold run_tree in H;
  repeat case_match; simplify_eq.

Ltac elem_cases :=
  repeat match goal with
         | H : _ ∈ [] |- _ => by apply elem_of_nil in H
         | H : _ ∈ _ :: _ |- _ => apply elem_of_cons in H as [H|H]
         end;
  simplify_eq.

(** C5. In an invocation that has read the status of the item, a status name
    different from the configured open status (strings are compared as they
    are) ends the invocation successfully: the last action is the skip
    message with the number of the item, no mutation is sent and no output
    is set.  When the names are equal the mutation is sent. *)
Theorem C5_open_status_gate inputs payload octokit tr out issueResp fv :
  run inputs payload octokit = (tr, out) →
  Graphql IssueStatus ∈ tr →
  graphql_issueStatus octokit = inr issueResp →
  first_node_field issueResp (λ fv, fv) = inr fv →
  (name <$> fv ≠ Some (open_status inputs) →
   out = Resolved ∧
   (∃ it, issue payload = Some it ∧
      last tr = Some (Info ("Skipping issue " +:+ pretty (number it)
                            +:+ " because it is not in an open status"))) ∧
   filter is_mutation tr = [] ∧
   filter is_output tr = []) ∧
  (name <$> fv = Some (open_status inputs) →
   ∃ input, Graphql (UpdateIssueStatus input) ∈ tr).
Proof.
  intros Hrun Hin Hresp Hfv.
  rewrite run_run_tree in Hrun. unfold run_tree in Hrun.
  rewrite Hresp, Hfv in Hrun.
  repeat case_match; simplify_eq;
    unfold getProject_call, skip_already_assigned, skip_not_open in *; elem_cases.
  all: split; intros Hs; try done.
  all: try (eexists; rewrite !elem_of_cons; by eauto).
  all: split_and!; eauto.
Qed.

Lemma C5_open_status_gate_witness :
  run (scenario_inputs acme_url) (issue_event (Some [alice])) (scripted_octokit [status_node "Done"])
  = ([acme_getProject; Graphql IssueStatus;
      Info "Skipping issue 12 because it is not in an open status"], Resolved) ∧
  filter is_mutation [acme_getProject; Graphql IssueStatus;
      Info "Skipping issue 12 because it is not in an open status"] = [].
Proof.
  assert (run (scenario_inputs acme_url) (issue_event (Some [alice]))
            (scripted_octokit [status_node "Done"])
          = ([acme_getProject; Graphql IssueStatus;
              Info "Skipping issue 12 because it is not in an open status"], Resolved))
    as Hrun by (vm_compute; reflexivity).
  split; [exact Hrun|].
  refine (proj1 (proj2 (proj2 (proj1
    (C5_open_status_gate _ _ _ _ _
       (Some {| projectItems_nodes := [status_node "Done"] |})
       (Some (fieldValueByName (status_node "Done")))
       Hrun _ _ _) _)))).
  - right. left.
  - reflexivity.
  - reflexivity.
  - discriminate.
Defined.

(** The comparison is exact: a status that differs from the open status by
    the case of a letter is not the open status. *)
Example C5_case_sensitive :
  run (scenario_inputs acme_url) (issue_event (Some [alice])) (scripted_octokit [status_node "todo"])
  = ([acme_getProject; Graphql IssueStatus;
      Info "Skipping issue 12 because it is not in an open status"], Resolved).
Proof. vm_compute. reflexivity. Qed.

(** C6. An invocation that sends the mutation sends it once, after the two
    queries of the same invocation, and its [input] carries the field id of
    the first node in the answer to the status query, the project id found
    in the answer to the project query under the key of the owner type, and
    the node id of the triggering item. *)
Theorem C6_mutation_identifiers inputs payload octokit tr out input :
  run inputs payload octokit = (tr, out) →
  Graphql (UpdateIssueStatus input) ∈ tr →
  length (filter is_mutation tr) = 1%nat ∧
  ∃ it ref idResp issueResp node post,
    issue payload = Some it ∧
    parse_projectUrl (project_url inputs) = inr ref ∧
    graphql_getProject octokit (ownerTypeQuery ref)
      {| var_projectOwnerName := projectOwnerName ref;
         var_projectNumber := projectNumber ref |} = inr idResp ∧
    graphql_issueStatus octokit = inr (Some issueResp) ∧
    projectItems_nodes issueResp !! 0%nat = Some node ∧
    tr = Graphql (GetProject (ownerTypeQuery ref)
                    {| var_projectOwnerName := projectOwnerName ref;
                       var_projectNumber := projectNumber ref |})
         :: Graphql IssueStatus
         :: Graphql (UpdateIssueStatus input) :: post ∧
    input_fieldId input = Some (field_databaseId (fieldValueByName node)) ∧
    input_projectId input =
      match ownerTypeQuery ref with
      | organization => id <$> ProjectNodeIDResponse.organization idResp
      | user => id <$> ProjectNodeIDResponse.user idResp
      end ∧
    input_contentId input = node_id it.
Proof.
  intros Hrun Hin.
  run_cases Hrun;
    unfold getProject_call, getProject_response, skip_already_assigned, skip_not_open in *;
    elem_cases.
  all: split; [done|].
  all: match goal with
       | H : first_node_field ?r _ = inr ?fv, E : name <$> ?fv = Some _ |- _ =>
           unfold first_node_field in H; destruct fv as [f|]; [|done];
           destruct r as [r'|]; [|done];
           destruct (projectItems_nodes r' !! 0%nat) as [node|] eqn:Hnode; [|done];
           simplify_eq
       end.
  all: eexists _, _, _, _, _, _; split_and!; try done.
  all: unfold mutation_input, ProjectNodeIDResponse_get; cbn;
    by match goal with |- context [ownerTypeQuery ?p] => destruct (ownerTypeQuery p) end.
Qed.

Lemma C6_mutation_identifiers_witness :
  run (scenario_inputs acme_url) (issue_event (Some [alice])) (scripted_octokit [status_node "Todo"])
  = ([Graphql (GetProject organization
                 {| var_projectOwnerName := Some "acme"; var_projectNumber := Exact 7 |});
      Graphql IssueStatus;
      Graphql (UpdateIssueStatus
                 {| input_fieldId := Some "F_9";
                    input_contentId := Some "I_kwDO12";
                    input_projectId := Some "PVT_1";
                    input_issueStatus := Some "Todo" |});
      SetOutput "fieldName" "In Progress"], Resolved) ∧
  length (filter is_mutation
            [Graphql (GetProject organization
                 {| var_projectOwnerName := Some "acme"; var_projectNumber := Exact 7 |});
             Graphql IssueStatus;
             Graphql (UpdateIssueStatus
                 {| input_fieldId := Some "F_9";
                    input_contentId := Some "I_kwDO12";
                    input_projectId := Some "PVT_1";
                    input_issueStatus := Some "Todo" |});
             SetOutput "fieldName" "In Progress"]) = 1%nat.
Proof.
  match goal with |- ?R ∧ _ => assert R as Hrun by (vm_compute; reflexivity) end.
  split; [exact Hrun|].
  refine (proj1 (C6_mutation_identifiers _ _ _ _ _ _ Hrun _)).
  right. right. left.
Defined.

(** C8, counterexample. With an empty node list the invocation is rejected
    with the [TypeError] of reading a property of [undefined]. *)
Lemma C8_counterexample :
  ¬ C8_as_stated (scenario_inputs acme_url) (issue_event (Some [alice])) (scripted_octokit []).
Proof.
  intros H.
  destruct (H [acme_getProject; Graphql IssueStatus]
              (Rejected (TypeError (ReadOfUndefined "fieldValueByName")))
              {| projectItems_nodes := [] |}) as [message Hm].
  - vm_compute. reflexivity.
  - right. left.
  - reflexivity.
  - reflexivity.
  - discriminate.
Qed.

(** C8, amended. When the status query returns an empty node list, reading
    [fieldValueByName] of the missing first node makes the runtime raise a
    [TypeError], which rejects the invocation right after the status query:
    no skip message, no mutation, no output.  The program has no error of
    its own for this case. *)
Theorem C8_no_linked_item inputs payload octokit tr out r :
  run inputs payload octokit = (tr, out) →
  Graphql IssueStatus ∈ tr →
  graphql_issueStatus octokit = inr (Some r) →
  projectItems_nodes r = [] →
  out = Rejected (TypeError (ReadOfUndefined "fieldValueByName")) ∧
  last tr = Some (Graphql IssueStatus) ∧
  filter is_mutation tr = [] ∧
  filter is_output tr = [].
Proof.
  intros Hrun Hin Hresp Hnodes.
  rewrite run_run_tree in Hrun. unfold run_tree in Hrun.
  rewrite Hresp in Hrun. unfold first_node_field in Hrun. rewrite Hnodes in Hrun.
  cbn [lookup list_lookup] in Hrun.
  repeat case_match; simplify_eq;
    unfold getProject_call, skip_already_assigned in *; elem_cases.
  done.
Qed.

Lemma C8_no_linked_item_witness :
  run (scenario_inputs acme_url) (issue_event (Some [alice])) (scripted_octokit [])
  = ([acme_getProject; Graphql IssueStatus],
     Rejected (TypeError (ReadOfUndefined "fieldValueByName"))) ∧
  filter is_mutation [acme_getProject; Graphql IssueStatus] = [].
Proof.
  match goal with |- ?R ∧ _ => assert R as Hrun by (vm_compute; reflexivity) end.
  split; [exact Hrun|].
  refine (proj1 (proj2 (proj2
    (C8_no_linked_item _ _ _ _ _ {| projectItems_nodes := [] |} Hrun _ _ _)))).
  - right. left.
  - reflexivity.
  - reflexivity.
Defined.

(** * Further properties of the program *)

(** ** The URL block, lines 6-7 and 74-85 *)

Lemma class_run_class_rest (a : ClassAtom) (s : string) :
  class_run a (class_rest a s) = "".
Proof.
  induction s as [|c s IH]; [done|]. cbn.
  destruct (class_matches a c) eqn:E; [done|]. cbn. by rewrite E.
Qed.

(** A string that begins with a documented URL does so in one way once the
    digits are taken as far as they go. *)
Lemma begins_maximal s :
  begins_with_documented_pattern s →
  ∃ scheme tok owner digits tail,
    documented_parts scheme tok owner digits ∧
    s = documented_url scheme tok owner digits +:+ tail ∧
    digit_run tail = "".
Proof.
  intros (scheme & tok & owner & digits & tail & [Hs Ht Ho Hoc Hd Hdc] & ->).
  exists scheme, tok, owner, (digits +:+ class_run ClassEscape_d tail),
    (class_rest ClassEscape_d tail).
  split_and!.
  - split; try done.
    + by destruct digits.
    + rewrite all_chars_app, Hdc. apply (class_run_all ClassEscape_d).
  - unfold documented_url. rewrite !app_assoc.
    by rewrite <- (class_run_rest ClassEscape_d tail).
  - rewrite digit_run_class_run. apply class_run_class_rest.
Qed.

Lemma parse_projectUrl_inl url e :
  parse_projectUrl url = inl e →
  ¬ begins_with_documented_pattern url ∧ e = invalid_project_url url.
Proof.
  intros H. destruct (String_match url urlParse) as [g|] eqn:Hm.
  - assert (begins_with_documented_pattern url) as Hb
      by (apply String_match_begins; eauto).
    destruct Hb as (scheme & tok & owner & digits & tail & Hp & ->).
    by rewrite parse_projectUrl_begins in H.
  - split; [by apply String_match_None|].
    unfold parse_projectUrl in H. rewrite Hm in H. by simplify_eq.
Qed.

(** X1. When the URL block succeeds, the URL begins with a documented URL,
    taken up to the last digit of the project number, and the reference is
    made of its parts: the owner type of the token, the owner name (not
    empty, without a slash) and the number the digits denote, which is
    never [NaN] and never negative. *)
Theorem parse_projectUrl_sound url ref :
  parse_projectUrl url = inr ref →
  ∃ scheme tok owner digits tail,
    documented_parts scheme tok owner digits ∧
    url = documented_url scheme tok owner digits +:+ tail ∧
    digit_run tail = "" ∧
    ref = {| ownerTypeQuery := owner_type_of tok;
             projectOwnerName := Some owner;
             projectNumber := number_of_mathInt (decimal digits) |} ∧
    0 ≤ decimal digits.
Proof.
  intros H.
  assert (begins_with_documented_pattern url) as Hb.
  { apply String_match_begins. unfold parse_projectUrl in H.
    destruct (String_match url urlParse); [eauto|done]. }
  apply begins_maximal in Hb as (scheme & tok & owner & digits & tail & Hp & -> & Htail).
  exists scheme, tok, owner, digits, tail. split_and!; try done.
  - rewrite parse_projectUrl_begins in H by done.
    rewrite <- digit_run_class_run, Htail, app_empty_r in H. by simplify_eq.
  - apply decimal_nonneg, (parts_digits_chars _ _ _ _ Hp).
Qed.

Lemma parse_projectUrl_sound_witness :
  parse_projectUrl "github.com/users/jdoe/projects/30/views/2"
  = inr {| ownerTypeQuery := user; projectOwnerName := Some "jdoe";
           projectNumber := Exact 30 |} ∧
  ∃ scheme tok owner digits tail,
    documented_parts scheme tok owner digits ∧
    "github.com/users/jdoe/projects/30/views/2"
    = documented_url scheme tok owner digits +:+ tail ∧
    digit_run tail = "".
Proof.
  assert (parse_projectUrl "github.com/users/jdoe/projects/30/views/2"
          = inr {| ownerTypeQuery := user; projectOwnerName := Some "jdoe";
                   projectNumber := Exact 30 |}) as H by (vm_compute; reflexivity).
  split; [exact H|].
  destruct (parse_projectUrl_sound _ _ H)
    as (scheme & tok & owner & digits & tail & Hp & Hu & Ht & _).
  by exists scheme, tok, owner, digits, tail.
Defined.

(** X2. The URL block fails exactly on the strings in which the pattern
    finds no match, and then always with the invalid-URL error: the error of
    [mustGetOwnerTypeQuery] cannot come out of it, since the pattern lets
    only "orgs" and "users" through. *)
Theorem parse_projectUrl_failure url e :
  parse_projectUrl url = inl e ↔
  ¬ begins_with_documented_pattern url ∧ e = invalid_project_url url.
Proof.
  split.
  - apply parse_projectUrl_inl.
  - intros [H ->]. by apply parse_projectUrl_no_match.
Qed.

Lemma parse_projectUrl_failure_witness :
  parse_projectUrl "https://github.com/teams/acme/projects/7"
  = inl (invalid_project_url "https://github.com/teams/acme/projects/7").
Proof.
  apply parse_projectUrl_failure. split; [|reflexivity].
  apply String_match_None. vm_compute. reflexivity.
Defined.

(** X3. A zero in front of the project number changes nothing: the number
    is read in base 10 whatever its leading zeros. *)
Theorem parse_projectUrl_leading_zero scheme tok owner digits tail :
  documented_parts scheme tok owner digits →
  parse_projectUrl (documented_url scheme tok owner ("0" +:+ digits) +:+ tail)
  = parse_projectUrl (documented_url scheme tok owner digits +:+ tail).
Proof.
  intros Hp. pose proof Hp as [Hs Ht Ho Hoc Hd Hdc].
  assert (documented_parts scheme tok owner ("0" +:+ digits)) as Hp0.
  { split; try done; rewrite all_chars_app, Hdc; reflexivity. }
  rewrite !parse_projectUrl_begins by done.
  rewrite app_assoc. reflexivity.
Qed.

Lemma parse_projectUrl_leading_zero_witness :
  documented_parts "https://" "orgs" "acme" "7" ∧
  parse_projectUrl (documented_url "https://" "orgs" "acme" ("0" +:+ "7") +:+ "")
  = parse_projectUrl (documented_url "https://" "orgs" "acme" "7" +:+ "").
Proof.
  assert (documented_parts "https://" "orgs" "acme" "7") as Hp.
  { split; [right; reflexivity | left; reflexivity | discriminate
           | reflexivity | discriminate | reflexivity]. }
  split; [exact Hp|].
  apply (parse_projectUrl_leading_zero "https://" "orgs" "acme" "7" "" Hp).
Defined.

(** ** The workflow, lines 52-179 *)

Ltac tree_cases H :=
  rewrite run_run_tree in H; unfold run_tree in H;
  repeat case_match; simplify_eq.

(** X4. An invocation performs at most three network calls, at most one of
    them the mutation, logs at most one message and sets at most one
    output: nothing is retried or repeated. *)
Theorem run_bounded_effects inputs payload octokit :
  (length (filter is_network_call (run inputs payload octokit).1) ≤ 3)%nat ∧
  (length (filter is_mutation (run inputs payload octokit).1) ≤ 1)%nat ∧
  (length (filter is_info (run inputs payload octokit).1) ≤ 1)%nat ∧
  (length (filter is_output (run inputs payload octokit).1) ≤ 1)%nat.
Proof.
  rewrite run_run_tree. unfold run_tree, getProject_call, skip_already_assigned, skip_not_open.
  repeat case_match; vm_compute; lia.
Qed.

(** X6. Every way an invocation can be resolved: skipped at the gate with
    one message and nothing else; skipped after the two queries because the
    status read is not the open status; or the two queries, the mutation and
    the output [fieldName] set to the name in the answer to the mutation.
    The output is never set in a skipped invocation, and a message is never
    logged in one that sets the output. *)
Theorem run_resolved inputs payload octokit tr :
  run inputs payload octokit = (tr, Resolved) →
  ∃ it, issue payload = Some it ∧
    ((assignees it = Some [] ∧ tr = [skip_already_assigned it])
     ∨ ∃ ref idResp issueResp fv,
         parse_projectUrl (project_url inputs) = inr ref ∧
         getProject_response octokit ref = inr idResp ∧
         graphql_issueStatus octokit = inr issueResp ∧
         first_node_field issueResp (λ fv, fv) = inr fv ∧
         ((name <$> fv ≠ Some (open_status inputs) ∧
           tr = [getProject_call ref; Graphql IssueStatus; skip_not_open it])
          ∨ ∃ updResp,
              name <$> fv = Some (open_status inputs) ∧
              graphql_updateIssueStatus octokit (mutation_input it ref idResp fv)
              = inr updResp ∧
              tr = [getProject_call ref; Graphql IssueStatus;
                    Graphql (UpdateIssueStatus (mutation_input it ref idResp fv));
                    SetOutput "fieldName"
                      (name (projectV2Item_fieldValueByName updResp))])).
Proof.
  intros H. tree_cases H; eexists; (split; [done|]).
  - by left.
  - right. eexists _, _, _, _. split_and!; try done. right. eauto.
  - right. eexists _, _, _, _. split_and!; try done. left. done.
Qed.

Lemma run_resolved_witness :
  run (scenario_inputs acme_url) (issue_event (Some [alice])) (scripted_octokit [status_node "Todo"])
  = ([acme_getProject; Graphql IssueStatus;
      Graphql (UpdateIssueStatus
                 {| input_fieldId := Some "F_9";
                    input_contentId := Some "I_kwDO12";
                    input_projectId := Some "PVT_1";
                    input_issueStatus := Some "Todo" |});
      SetOutput "fieldName" "In Progress"], Resolved) ∧
  ∃ it, issue (issue_event (Some [alice])) = Some it.
Proof.
  match goal with |- ?R ∧ _ => assert R as Hrun by (vm_compute; reflexivity) end.
  split; [exact Hrun|].
  destruct (run_resolved _ _ _ _ Hrun) as (it & Hit & _).
  by exists it.
Defined.

(** X7. The gate skips exactly the items whose [assignees] array is empty:
    for a payload with an issue, the invocation consists of the
    already-assigned message alone if and only if the issue has an empty
    list of assignees. *)
Theorem run_gate_skip inputs payload octokit it :
  issue payload = Some it →
  (run inputs payload octokit = ([skip_already_assigned it], Resolved)
   ↔ assignees it = Some []).
Proof.
  intros Hit. rewrite run_run_tree. unfold run_tree. rewrite Hit. split.
  - intros H. unfold getProject_call, skip_not_open in H.
    repeat case_match; by simplify_eq.
  - by intros ->.
Qed.

Lemma run_gate_skip_witness :
  run (scenario_inputs acme_url) (issue_event (Some [])) (scripted_octokit [status_node "Todo"])
  = ([skip_already_assigned (item_12 (Some []))], Resolved).
Proof.
  apply (run_gate_skip (scenario_inputs acme_url) (issue_event (Some []))
           (scripted_octokit [status_node "Todo"]) (item_12 (Some []))).
  - reflexivity.
  - reflexivity.
Defined.

(** X8. The identifiers are passed on unchecked.  When the answer to the
    project query has no entry under the key of the owner type,
    [idResp[ownerTypeQuery]?.projectV2.id] is [undefined]; the invocation
    goes on, and an item in the open status gets the mutation with an
    undefined [projectId]. *)
Theorem mutation_without_project inputs payload octokit it a l ref idResp r node :
  issue payload = Some it →
  assignees it = Some (a :: l) →
  parse_projectUrl (project_url inputs) = inr ref →
  getProject_response octokit ref = inr idResp →
  ProjectNodeIDResponse_get idResp (ownerTypeQuery ref) = None →
  graphql_issueStatus octokit = inr (Some r) →
  projectItems_nodes r !! 0%nat = Some node →
  name (fieldValueByName node) = open_status inputs →
  ∃ post out,
    run inputs payload octokit
    = (getProject_call ref :: Graphql IssueStatus
       :: Graphql (UpdateIssueStatus
                     {| input_fieldId := Some (field_databaseId (fieldValueByName node));
                        input_contentId := node_id it;
                        input_projectId := None;
                        input_issueStatus := Some (open_status inputs) |})
       :: post, out).
Proof.
  intros Hit Ha Hp Hid Hget Hst Hnode Hname.
  rewrite run_run_tree. unfold run_tree, first_node_field, mutation_input.
  rewrite Hit, Ha, Hp, Hid, Hst, Hnode, Hget. cbn. rewrite Hname.
  rewrite decide_True by done.
  destruct (graphql_updateIssueStatus _ _); eauto.
Qed.

Lemma mutation_without_project_witness :
  ∃ post out,
    run (scenario_inputs "github.com/users/jdoe/projects/3")
      (issue_event (Some [alice])) (scripted_octokit [status_node "Todo"])
    = (Graphql (GetProject user
                  {| var_projectOwnerName := Some "jdoe"; var_projectNumber := Exact 3 |})
       :: Graphql IssueStatus
       :: Graphql (UpdateIssueStatus
                     {| input_fieldId := Some "F_9";
                        input_contentId := Some "I_kwDO12";
                        input_projectId := None;
                        input_issueStatus := Some "Todo" |})
       :: post, out).
Proof.
  apply (mutation_without_project
           (scenario_inputs "github.com/users/jdoe/projects/3")
           (issue_event (Some [alice])) (scripted_octokit [status_node "Todo"])
           (item_12 (Some [alice])) alice []
           {| ownerTypeQuery := user; projectOwnerName := Some "jdoe";
              projectNumber := Exact 3 |}
           {| ProjectNodeIDResponse.organization := Some {| id := "PVT_1" |};
              ProjectNodeIDResponse.user := None |}
           {| projectItems_nodes := [status_node "Todo"] |}
           (status_node "Todo")).
  - reflexivity.
  - reflexivity.
  - vm_compute. reflexivity.
  - reflexivity.
  - reflexivity.
  - reflexivity.
  - reflexivity.
  - reflexivity.
Defined.

(** X9. A nullish answer to the status query raises nothing: through [?.]
    the status read is [undefined], which is not the open status, and the
    invocation is skipped with the not-open message, without a mutation.
    (An answer with an empty node list, by contrast, is a [TypeError].) *)
Theorem status_response_nullish inputs payload octokit tr out :
  run inputs payload octokit = (tr, out) →
  Graphql IssueStatus ∈ tr →
  graphql_issueStatus octokit = inr None →
  out = Resolved ∧
  (∃ it, issue payload = Some it ∧ last tr = Some (skip_not_open it)) ∧
  filter is_mutation tr = [] ∧
  filter is_output tr = [].
Proof.
  intros Hrun Hin Hresp.
  rewrite run_run_tree in Hrun. unfold run_tree in Hrun.
  rewrite Hresp in Hrun. cbn [first_node_field] in Hrun.
  repeat case_match; simplify_eq/=;
    unfold getProject_call, skip_already_assigned in *; elem_cases.
  split_and!; eauto.
Qed.

Lemma status_response_nullish_witness :
  run (scenario_inputs acme_url) (issue_event (Some [alice]))
    {| graphql_getProject := graphql_getProject (scripted_octokit []);
       graphql_issueStatus := inr None;
       graphql_updateIssueStatus := graphql_updateIssueStatus (scripted_octokit []) |}
  = ([acme_getProject; Graphql IssueStatus;
      Info "Skipping issue 12 because it is not in an open status"], Resolved) ∧
  filter is_mutation
    [acme_getProject; Graphql IssueStatus;
     Info "Skipping issue 12 because it is not in an open status"] = [].
Proof.
  match goal with |- ?R ∧ _ => assert R as Hrun by (vm_compute; reflexivity) end.
  split; [exact Hrun|].
  refine (proj1 (proj2 (proj2 (status_response_nullish _ _ _ _ _ Hrun _ _)))).
  - right. left.
  - reflexivity.
Defined.

(** X10. Only the first node of the answer to the status query is read:
    two clients that differ in the nodes after the first give the same
    invocation. *)
Theorem run_first_node_only inputs payload getProject update node rest1 rest2 :
  run inputs payload
    {| graphql_getProject := getProject;
       graphql_issueStatus := inr (Some {| projectItems_nodes := node :: rest1 |});
       graphql_updateIssueStatus := update |}
  = run inputs payload
      {| graphql_getProject := getProject;
         graphql_issueStatus := inr (Some {| projectItems_nodes := node :: rest2 |});
         graphql_updateIssueStatus := update |}.
Proof. by rewrite !run_run_tree. Qed.



(** ** The entry point, [src/main.ts] *)

Lemma main_run runtime_message inputs payload octokit :
  main runtime_message inputs payload octokit =
  match run inputs payload octokit with
  | (tr, Resolved) => {| actions := tr; failed := None; exit_code := 0 |}
  | (tr, Rejected err) =>
      {| actions := tr; failed := Some (error_message runtime_message err); exit_code := 1 |}
  end.
Proof.
  unfold main, run. by destruct (updateIssueStatus _ _ _ _) as [tr [err|[]]].
Qed.

(** X11. The process exits with code 0 and without [core.setFailed] when
    the promise is resolved, with code 1 and [err.message] given to
    [core.setFailed] when it is rejected; an invocation that logged a skip
    message always exits with code 0. *)
Theorem main_exit_code runtime_message inputs payload octokit :
  actions (main runtime_message inputs payload octokit) = (run inputs payload octokit).1 ∧
  ((run inputs payload octokit).2 = Resolved ∧
   exit_code (main runtime_message inputs payload octokit) = 0 ∧
   failed (main runtime_message inputs payload octokit) = None
   ∨ ∃ err, (run inputs payload octokit).2 = Rejected err ∧
       exit_code (main runtime_message inputs payload octokit) = 1 ∧
       failed (main runtime_message inputs payload octokit)
       = Some (error_message runtime_message err)) ∧
  (∀ message, Info message ∈ actions (main runtime_message inputs payload octokit) →
     exit_code (main runtime_message inputs payload octokit) = 0 ∧
     failed (main runtime_message inputs payload octokit) = None).
Proof.
  rewrite main_run. split_and!.
  - by destruct (run _ _ _) as [tr [|err]].
  - destruct (run _ _ _) as [tr [|err]]; cbn; [left | right; eexists]; done.
  - intros message. destruct (run inputs payload octokit) as [tr out] eqn:Hrun.
    intros Hin.
    assert (out = Resolved) as ->; [|done].
    destruct out as [|err]; [done|]. cbn in Hin.
    tree_cases Hrun; unfold getProject_call in *; elem_cases.
Qed.

Lemma main_exit_code_witness :
  exit_code (main (λ _, "TypeError") (scenario_inputs acme_url) (issue_event (Some []))
               (scripted_octokit [status_node "Todo"])) = 0 ∧
  failed (main (λ _, "TypeError") (scenario_inputs acme_url) (issue_event (Some []))
            (scripted_octokit [status_node "Todo"])) = None.
Proof.
  apply (proj2 (proj2 (main_exit_code (λ _, "TypeError") (scenario_inputs acme_url)
                         (issue_event (Some [])) (scripted_octokit [status_node "Todo"])))
           "Skipping issue 12 because it is already assigned an owner").
  left.
Defined.

(** X12. With a URL in which the pattern finds no match, and an item that
    passes the gate, the process does nothing, gives [core.setFailed] the
    invalid-URL message with the URL in it, and exits with code 1. *)
Theorem main_invalid_url runtime_message inputs payload octokit it a l :
  issue payload = Some it →
  assignees it = Some (a :: l) →
  ¬ begins_with_documented_pattern (project_url inputs) →
  main runtime_message inputs payload octokit
  = {| actions := [];
       failed := Some ("Invalid project URL: " +:+ project_url inputs
                       +:+ ". Project URL should match the format https://github.com/<orgs-or-users>/<ownerName>/projects/<projectNumber>");
       exit_code := 1 |}.
Proof.
  intros Hit Ha Hno%parse_projectUrl_no_match.
  rewrite main_run, run_run_tree. unfold run_tree.
  by rewrite Hit, Ha, Hno.
Qed.

Lemma main_invalid_url_witness :
  main (λ _, "TypeError") (scenario_inputs gitlab_url) (issue_event (Some [alice]))
    (scripted_octokit [status_node "Todo"])
  = {| actions := [];
       failed := Some "Invalid project URL: https://gitlab.com/orgs/acme/projects/7. Project URL should match the format https://github.com/<orgs-or-users>/<ownerName>/projects/<projectNumber>";
       exit_code := 1 |}.
Proof.
  apply (main_invalid_url (λ _, "TypeError") (scenario_inputs gitlab_url)
           (issue_event (Some [alice])) (scripted_octokit [status_node "Todo"])
           (item_12 (Some [alice])) alice []).
  - reflexivity.
  - reflexivity.
  - apply String_match_None. vm_compute. reflexivity.
Defined.
